(** * quora_api_tools: the request executor and the endpoint functions

    A shallow embedding of [quora_api_tools.py].  Python values are modelled by
    the type [value] below, [str] by the list of its code points, [dict] by an
    association list in insertion order.  The HTTPS round trip and
    [json.loads] are the environment: each is a variable of the section that
    holds the executor.  [logger] calls are left out: they return nothing the
    functions use and change no variable of the program. *)

From Stdlib Require Import List String Ascii NArith ZArith Lia Bool Arith.
From Stdlib Require Import DecimalString.
Import ListNotations.

Set Implicit Arguments.
Set Warnings "-register-all".

(** ** Python strings *)

(** A [str] is a sequence of code points; [len] and slices count code points. *)
Definition pystr := list N.

Definition py (s : string) : pystr :=
  map N_of_ascii (list_ascii_of_string s).

Definition pystr_eqb (a b : pystr) : bool :=
  if list_eq_dec N.eq_dec a b then true else false.

(** [str(n)] and [f"{n}"] for a natural number [n]. *)
Definition str_of_nat (n : nat) : pystr :=
  py (NilEmpty.string_of_uint (Nat.to_uint n)).

(** ** Python values

    What [json.loads] can return, which is also all this program builds:
    [None], [bool], [int], [float] (the 64 bits of the double), [str], [list]
    and [dict]. *)
Inductive value : Type :=
| VNone
| VBool (b : bool)
| VInt (z : Z)
| VFloat (bits : N)
| VStr (s : pystr)
| VList (l : list value)
| VDict (d : list (pystr * value)).

(** [d.get(k)] as an option, and [d[k] = v] (the value is replaced in place
    when the key is there, and added at the end otherwise). *)
Fixpoint dict_lookup (A : Type) (k : pystr) (d : list (pystr * A)) : option A :=
  match d with
  | [] => None
  | (k', v) :: d' => if pystr_eqb k k' then Some v else dict_lookup k d'
  end.

Fixpoint dict_set (A : Type) (k : pystr) (v : A) (d : list (pystr * A))
  : list (pystr * A) :=
  match d with
  | [] => [(k, v)]
  | (k', v') :: d' =>
      if pystr_eqb k k' then (k, v) :: d' else (k', v') :: dict_set k v d'
  end.

(** [type(v).__name__] *)
Definition type_name (v : value) : pystr :=
  match v with
  | VNone => py "NoneType"
  | VBool _ => py "bool"
  | VInt _ => py "int"
  | VFloat _ => py "float"
  | VStr _ => py "str"
  | VList _ => py "list"
  | VDict _ => py "dict"
  end.

(** ** Exceptions

    The instances of [Exception] the program meets.  [OtherError] stands for
    those raised by the environment ([socket.timeout], [ConnectionError],
    [http.client.HTTPException], [UnicodeDecodeError], [RecursionError] ...),
    given by class name and text. *)
Inductive exn : Type :=
| JSONDecodeError (msg : pystr) (lineno colno pos : nat)
| UnicodeEncodeError (object : pystr) (start stop : nat)
| AttributeError (obj_type attr : pystr)
| OtherError (class_name text : pystr).

Definition is_JSONDecodeError (e : exn) : bool :=
  match e with JSONDecodeError _ _ _ _ => true | _ => false end.

(** [type(e).__name__] *)
Definition exn_type_name (e : exn) : pystr :=
  match e with
  | JSONDecodeError _ _ _ _ => py "JSONDecodeError"
  | UnicodeEncodeError _ _ _ => py "UnicodeEncodeError"
  | AttributeError _ _ => py "AttributeError"
  | OtherError c _ => c
  end.

Definition hex_digit (upper : bool) (n : N) : N :=
  if (n <? 10)%N then (48 + n)%N
  else if upper then (55 + n)%N else (87 + n)%N.

(** ["%04x" % c] for a code point of the basic plane *)
Definition hex4 (c : N) : pystr :=
  [hex_digit false (N.shiftr c 12 mod 16); hex_digit false (N.shiftr c 8 mod 16);
   hex_digit false (N.shiftr c 4 mod 16); hex_digit false (c mod 16)]%N.

(** [str(e)] *)
Definition exn_str (e : exn) : pystr :=
  match e with
  | JSONDecodeError msg lineno colno pos =>
      msg ++ py ": line " ++ str_of_nat lineno ++ py " column "
          ++ str_of_nat colno ++ py " (char " ++ str_of_nat pos ++ py ")"
  | UnicodeEncodeError object start stop =>
      if Nat.eqb stop (S start) then
        py "'utf-8' codec can't encode character '\u"
           ++ hex4 (nth start object 0%N) ++ py "' in position "
           ++ str_of_nat start ++ py ": surrogates not allowed"
      else
        py "'utf-8' codec can't encode characters in position "
           ++ str_of_nat start ++ py "-" ++ str_of_nat (pred stop)
           ++ py ": surrogates not allowed"
  | AttributeError obj_type attr =>
      py "'" ++ obj_type ++ py "' object has no attribute '" ++ attr ++ py "'"
  | OtherError _ text => text
  end.

(** ** [urllib.parse.urlencode]

    [str.encode("utf-8", "strict")]: one to four bytes for a code point; a
    surrogate cannot be encoded, and the error names the run of surrogates
    that starts there. *)
Definition is_surrogate (c : N) : bool :=
  ((0xD800 <=? c) && (c <=? 0xDFFF))%N.

Definition utf8_char (c : N) : list N :=
  (if c <? 0x80 then [c]
   else if c <? 0x800 then
     [N.lor 0xC0 (N.shiftr c 6); N.lor 0x80 (N.land c 0x3F)]
   else if c <? 0x10000 then
     [N.lor 0xE0 (N.shiftr c 12); N.lor 0x80 (N.land (N.shiftr c 6) 0x3F);
      N.lor 0x80 (N.land c 0x3F)]
   else
     [N.lor 0xF0 (N.shiftr c 18); N.lor 0x80 (N.land (N.shiftr c 12) 0x3F);
      N.lor 0x80 (N.land (N.shiftr c 6) 0x3F); N.lor 0x80 (N.land c 0x3F)])%N.

Fixpoint surrogate_run (s : pystr) : nat :=
  match s with
  | c :: s' => if is_surrogate c then S (surrogate_run s') else 0
  | [] => 0
  end.

Fixpoint encode_from (object : pystr) (i : nat) (s : pystr) : exn + list N :=
  match s with
  | [] => inr []
  | c :: s' =>
      if is_surrogate c then
        inl (UnicodeEncodeError object i (i + surrogate_run s))
      else
        match encode_from object (S i) s' with
        | inl e => inl e
        | inr bs => inr (utf8_char c ++ bs)
        end
  end.

Definition encode_utf8 (s : pystr) : exn + list N := encode_from s 0 s.

(** The bytes [quote] never escapes: letters, digits and [_.-~]. *)
Definition always_safe (b : N) : bool :=
  ((65 <=? b) && (b <=? 90) || (97 <=? b) && (b <=? 122)
   || (48 <=? b) && (b <=? 57)
   || (b =? 95) || (b =? 46) || (b =? 45) || (b =? 126))%N.

(** [quote_plus(s)], with its default arguments: the UTF-8 bytes of [s], a
    safe byte as it is, a space as [+], any other byte as [%XX]. *)
Definition quote_byte (b : N) : pystr :=
  if always_safe b then [b]
  else if (b =? 32)%N then [43%N]
  else [37%N; hex_digit true (N.shiftr b 4); hex_digit true (b mod 16)].

Definition quote_plus (s : pystr) : exn + pystr :=
  match encode_utf8 s with
  | inl e => inl e
  | inr bs => inr (flat_map quote_byte bs)
  end.

(** [urlencode(params)] for a dict of strings: [k=v] for each item, in the
    order of the dict, joined by [&]. *)
Fixpoint urlencode_items (items : list (pystr * pystr)) : exn + list pystr :=
  match items with
  | [] => inr []
  | (k, v) :: rest =>
      match quote_plus k with
      | inl e => inl e
      | inr k' =>
          match quote_plus v with
          | inl e => inl e
          | inr v' =>
              match urlencode_items rest with
              | inl e => inl e
              | inr l => inr ((k' ++ py "=" ++ v') :: l)
              end
          end
      end
  end.

Fixpoint join (sep : pystr) (l : list pystr) : pystr :=
  match l with
  | [] => []
  | [x] => x
  | x :: rest => x ++ sep ++ join sep rest
  end.

Definition urlencode (params : list (pystr * pystr)) : exn + pystr :=
  match urlencode_items params with
  | inl e => inl e
  | inr l => inr (join (py "&") l)
  end.

(** ** The environment of the executor *)

(** What [conn.request(method, url, None, headers)] sends. *)
Record request : Type := mkRequest {
  req_method : pystr;
  req_url : pystr;
  req_headers : list (pystr * pystr)
}.

(** One attempt as the network answers it: [HTTPSConnection(...)] raises, or
    one of [conn.request], [conn.getresponse], [res.read], [.decode("utf-8")]
    raises, or the round trip completes with [res.status] and the decoded
    body. *)
Inductive outcome : Type :=
| ConnectRaises (e : exn)
| ExchangeRaises (e : exn)
| Responds (status : Z) (data : pystr).

(** What the program does to the outside. *)
Inductive event : Type :=
| EvConnect (host : pystr)
| EvTimeout (seconds : nat)
| EvRequest (r : request)
| EvSleep (seconds : nat)
| EvClose.

(** ** Control flow

    A block of statements ends normally, by [return v] or by [raise e]; it
    emits events and may bind the local [conn], the one local whose binding
    the program inspects (['conn' in locals()]). *)
Inductive completion (A : Type) : Type :=
| Normal (a : A)
| Returned (v : value)
| Raised (e : exn).

Arguments Normal {A} a.
Arguments Returned {A} v.
Arguments Raised {A} e.

Definition M (A : Type) : Type := bool -> list event * bool * completion A.

Definition ret (A : Type) (a : A) : M A := fun s => ([], s, Normal a).

Definition bind (A B : Type) (m : M A) (f : A -> M B) : M B :=
  fun s =>
    match m s with
    | (t, s', Normal a) =>
        match f a s' with (t', s'', c) => (t ++ t', s'', c) end
    | (t, s', Returned v) => (t, s', Returned v)
    | (t, s', Raised e) => (t, s', Raised e)
    end.

Notation "x <- m ;; k" := (bind m (fun x => k))
  (at level 61, m at next level, right associativity).
Notation "m ;; k" := (bind m (fun _ => k))
  (at level 61, right associativity).

Definition emit (ev : event) : M unit := fun s => ([ev], s, Normal tt).
Definition return_ {A : Type} (v : value) : M A := fun s => ([], s, Returned v).
Definition raise {A : Type} (e : exn) : M A := fun s => ([], s, Raised e).

Definition lift (A : Type) (r : exn + A) : M A :=
  match r with inl e => raise e | inr a => ret a end.

(** [conn = ...] and ['conn' in locals()] *)
Definition bind_conn : M unit := fun _ => ([], true, Normal tt).
Definition conn_in_locals : M bool := fun s => ([], s, Normal s).

(** [try: m  except C as e: h e], where [catches] tells the instances of [C]. *)
Definition try_except (A : Type) (m : M A) (catches : exn -> bool)
    (h : exn -> M A) : M A :=
  fun s =>
    match m s with
    | (t, s', Raised e) =>
        if catches e then
          match h e s' with (t', s'', c) => (t ++ t', s'', c) end
        else (t, s', Raised e)
    | r => r
    end.

(** [try: m  finally: f]: [f] runs whatever way [m] ended, and [m]'s way of
    ending stands unless [f] itself returns or raises. *)
Definition try_finally (A : Type) (m : M A) (f : M unit) : M A :=
  fun s =>
    match m s with
    | (t, s', c) =>
        match f s' with
        | (t', s'', Normal _) => (t ++ t', s'', c)
        | (t', s'', Returned v) => (t ++ t', s'', Returned v)
        | (t', s'', Raised e) => (t ++ t', s'', Raised e)
        end
    end.

(** [for x in l: body x] *)
Fixpoint for_each (A : Type) (l : list A) (body : A -> M unit) : M unit :=
  match l with
  | [] => ret tt
  | x :: l' => body x ;; for_each l' body
  end.

(** [range(n)] *)
Definition range (n : nat) : list nat := seq 0 n.

(** A call [f(...)] of a function whose body is [body]: the callee has
    locals of its own; falling off its end gives [None]. *)
Definition call (body : M unit) : M value :=
  fun s =>
    match body false with
    | (t, _, Normal _) => (t, s, Normal VNone)
    | (t, _, Returned v) => (t, s, Normal v)
    | (t, _, Raised e) => (t, s, Raised e)
    end.

(** A call from outside: the events, and the value returned or the exception
    that reaches the caller. *)
Definition run (body : M unit) : list event * (exn + value) :=
  match body false with
  | (t, _, Normal _) => (t, inr VNone)
  | (t, _, Returned v) => (t, inr v)
  | (t, _, Raised e) => (t, inl e)
  end.

(** [d.get(k, default)] on any value: only a dict has [get]. *)
Definition value_get (v : value) (k : pystr) (default : value) : exn + value :=
  match v with
  | VDict d =>
      match dict_lookup k d with
      | Some x => inr x
      | None => inr default
      end
  | _ => inl (AttributeError (type_name v) (py "get"))
  end.

(** Truth value of a dict or [None], and of a string or [None]. *)
Definition dict_truthy (A : Type) (d : option (list (pystr * A))) : bool :=
  match d with
  | Some (_ :: _) => true
  | _ => false
  end.

(** [if data:] *)
Definition nonempty (s : pystr) : bool :=
  match s with [] => false | _ :: _ => true end.

(** ** A decoder to run the model with

    [json.loads] is a variable of the executor.  To run the executor on a
    body, [json_loads_lite] decodes the JSON texts made of [null], [true],
    [false], integers, strings without escapes, arrays and objects, and
    raises the error of [json.loads] on a text whose first character starts
    no value.  Other texts are outside it. *)
Definition is_ws (c : N) : bool :=
  ((c =? 32) || (c =? 9) || (c =? 10) || (c =? 13))%N.

Fixpoint skip_ws (s : pystr) : pystr :=
  match s with
  | c :: s' => if is_ws c then skip_ws s' else s
  | [] => []
  end.

Definition is_digit (c : N) : bool := ((48 <=? c) && (c <=? 57))%N.

Fixpoint strip_prefix (p s : pystr) : option pystr :=
  match p, s with
  | [], _ => Some s
  | a :: p', b :: s' => if (a =? b)%N then strip_prefix p' s' else None
  | _ :: _, [] => None
  end.

(** The characters of a string up to its closing quote. *)
Fixpoint scan_string (s : pystr) : option (pystr * pystr) :=
  match s with
  | [] => None
  | c :: s' =>
      if (c =? 34)%N then Some ([], s')
      else if ((c =? 92) || (c <? 32))%N then None
      else
        match scan_string s' with
        | Some (body, rest) => Some (c :: body, rest)
        | None => None
        end
  end.

Fixpoint scan_digits (acc : Z) (s : pystr) : Z * pystr :=
  match s with
  | c :: s' =>
      if is_digit c then scan_digits (10 * acc + (Z.of_N c - 48))%Z s'
      else (acc, s)
  | [] => (acc, [])
  end.

Definition scan_int (s : pystr) : option (Z * pystr) :=
  match s with
  | c :: s' =>
      if (c =? 48)%N then Some (0%Z, s')
      else if is_digit c then Some (scan_digits 0 s)
      else None
  | [] => None
  end.

Definition not_float (r : Z * pystr) : option (value * pystr) :=
  match snd r with
  | c :: _ =>
      if ((c =? 46) || (c =? 101) || (c =? 69))%N then None
      else Some (VInt (fst r), snd r)
  | [] => Some (VInt (fst r), [])
  end.

Fixpoint scan_value (fuel : nat) (s : pystr) : option (value * pystr) :=
  match fuel with
  | O => None
  | S fuel' =>
      match skip_ws s with
      | [] => None
      | c :: s' =>
          if (c =? 34)%N then
            match scan_string s' with
            | Some (body, rest) => Some (VStr body, rest)
            | None => None
            end
          else if (c =? 91)%N then
            match skip_ws s' with
            | d :: s'' =>
                if (d =? 93)%N then Some (VList [], s'')
                else
                  match scan_items fuel' s' with
                  | Some (l, rest) => Some (VList l, rest)
                  | None => None
                  end
            | [] => None
            end
          else if (c =? 123)%N then
            match skip_ws s' with
            | d :: s'' =>
                if (d =? 125)%N then Some (VDict [], s'')
                else
                  match scan_members fuel' s' with
                  | Some (d, rest) => Some (VDict d, rest)
                  | None => None
                  end
            | [] => None
            end
          else if (c =? 45)%N then
            match scan_int s' with
            | Some (z, rest) => not_float ((- z)%Z, rest)
            | None => None
            end
          else if is_digit c then
            match scan_int (c :: s') with
            | Some r => not_float r
            | None => None
            end
          else
            match strip_prefix (py "null") (c :: s') with
            | Some rest => Some (VNone, rest)
            | None =>
                match strip_prefix (py "true") (c :: s') with
                | Some rest => Some (VBool true, rest)
                | None =>
                    match strip_prefix (py "false") (c :: s') with
                    | Some rest => Some (VBool false, rest)
                    | None => None
                    end
                end
            end
      end
  end

with scan_items (fuel : nat) (s : pystr) : option (list value * pystr) :=
  match fuel with
  | O => None
  | S fuel' =>
      match scan_value fuel' s with
      | Some (v, rest) =>
          match skip_ws rest with
          | c :: rest' =>
              if (c =? 93)%N then Some ([v], rest')
              else if (c =? 44)%N then
                match scan_items fuel' rest' with
                | Some (l, rest'') => Some (v :: l, rest'')
                | None => None
                end
              else None
          | [] => None
          end
      | None => None
      end
  end

with scan_members (fuel : nat) (s : pystr)
  : option (list (pystr * value) * pystr) :=
  match fuel with
  | O => None
  | S fuel' =>
      match skip_ws s with
      | q :: s1 =>
          if (q =? 34)%N then
            match scan_string s1 with
            | Some (k, s2) =>
                match skip_ws s2 with
                | colon :: s3 =>
                    if (colon =? 58)%N then
                      match scan_value fuel' s3 with
                      | Some (v, s4) =>
                          match skip_ws s4 with
                          | c :: s5 =>
                              if (c =? 125)%N then Some ([(k, v)], s5)
                              else if (c =? 44)%N then
                                match scan_members fuel' s5 with
                                | Some (d, s6) =>
                                    Some ((k, v) :: d, s6)
                                | None => None
                                end
                              else None
                          | [] => None
                          end
                      | None => None
                      end
                    else None
                | [] => None
                end
            | None => None
            end
          else None
      | [] => None
      end
  end.

(** A [dict] built from the members of an object: a later value for a key
    replaces the earlier one. *)
Fixpoint dict_of_members (A : Type) (acc items : list (pystr * A))
  : list (pystr * A) :=
  match items with
  | [] => acc
  | (k, v) :: rest => dict_of_members (dict_set k v acc) rest
  end.

Fixpoint normalize (fuel : nat) (v : value) : value :=
  match fuel with
  | O => v
  | S fuel' =>
      match v with
      | VList l => VList (map (normalize fuel') l)
      | VDict d =>
          VDict (dict_of_members []
                   (map (fun kv => (fst kv, normalize fuel' (snd kv))) d))
      | _ => v
      end
  end.

(** [JSONDecodeError(msg, doc, pos)]: line and column are counted from [pos]. *)
Definition count_newlines (s : pystr) : nat :=
  List.length (filter (fun c => (c =? 10)%N) s).

Fixpoint column (col : nat) (s : pystr) : nat :=
  match s with
  | [] => col
  | c :: s' => if (c =? 10)%N then column 1 s' else column (S col) s'
  end.

Definition decode_error (msg doc : pystr) (pos : nat) : exn :=
  JSONDecodeError msg (S (count_newlines (firstn pos doc)))
                  (column 1 (firstn pos doc)) pos.

Definition json_loads_lite (s : pystr) : exn + value :=
  match scan_value (2 * S (List.length s)) s with
  | Some (v, rest) =>
      match skip_ws rest with
      | [] => inr (normalize (List.length s) v)
      | _ :: _ =>
          inl (decode_error (py "Extra data") s
                 (List.length s - List.length (skip_ws rest)))
      end
  | None =>
      inl (decode_error (py "Expecting value") s
             (List.length s - List.length (skip_ws s)))
  end.

(** [json.loads] recurses once for each array it enters: a text that
    opens more arrays in a row than the interpreter has room for raises
    [RecursionError] before the scanner gets to the end of the text.  The
    room left, [limit], depends on the interpreter and on the depth of the
    call; below it the decoder is [json_loads_lite]. *)
Fixpoint opening_depth (s : pystr) : nat :=
  match s with
  | 91%N :: s' => S (opening_depth s')
  | _ => 0
  end.

Definition json_loads_recursion_limit (limit : nat) : pystr -> exn + value :=
  fun s =>
    if limit <? opening_depth s then
      inl (OtherError (py "RecursionError")
             (py "maximum recursion depth exceeded while decoding a JSON array from a unicode string"))
    else json_loads_lite s.

(** A body of [n] opening brackets. *)
Definition deeply_nested (n : nat) : pystr := repeat 91%N n.

(** ** Networks to run the model with *)

(** The values [QUORA_API_KEY] and [QUORA_API_HOST] take when the
    environment does not set them. *)
Definition QUORA_API_KEY_default : pystr := py "xxxx".
Definition QUORA_API_HOST_default : pystr :=
  py "quora-scraper.p.rapidapi.com".

Definition timed_out : exn := OtherError (py "TimeoutError") (py "timed out").

(** Every attempt fails. *)
Definition always_down : nat -> request -> outcome :=
  fun _ _ => ExchangeRaises timed_out.

(** Every attempt is answered the same. *)
Definition always_answers (status : Z) (data : pystr)
  : nat -> request -> outcome :=
  fun _ _ => Responds status data.

(** The first [k] attempts fail, the next ones are answered. *)
Definition down_then_answers (k : nat) (status : Z) (data : pystr)
  : nat -> request -> outcome :=
  fun attempt _ =>
    if attempt <? k then ExchangeRaises timed_out else Responds status data.

(** No attempt gets a connection. *)
Definition refused : exn :=
  OtherError (py "ConnectionRefusedError") (py "[Errno 111] Connection refused").

Definition never_connects : nat -> request -> outcome :=
  fun _ _ => ConnectRaises refused.

(** The first attempt gets a connection and times out, the next ones get
    none. *)
Definition connects_once : nat -> request -> outcome :=
  fun attempt _ =>
    if attempt =? 0 then ExchangeRaises timed_out else ConnectRaises refused.

(** Attempt [a] is answered with the status and the body at index [a] of
    the list, and times out when the list has none. *)
Definition answers_in_turn (answers : list (Z * pystr))
  : nat -> request -> outcome :=
  fun attempt _ =>
    match nth_error answers attempt with
    | Some (status, data) => Responds status data
    | None => ExchangeRaises timed_out
    end.

(** A double quote, and a JSON object with one string member. *)
Definition dq : pystr := [34%N].

Definition json_object1 (k v : pystr) : pystr :=
  py "{" ++ dq ++ k ++ dq ++ py ": " ++ dq ++ v ++ dq ++ py "}".

(** ** Reading a run *)

Definition is_connect (ev : event) : bool :=
  match ev with EvConnect _ => true | _ => false end.

(** Each attempt starts with one [HTTPSConnection(...)]. *)
Definition attempts_made (t : list event) : nat :=
  List.length (filter is_connect t).

Fixpoint sleeps (t : list event) : list nat :=
  match t with
  | [] => []
  | EvSleep n :: t' => n :: sleeps t'
  | _ :: t' => sleeps t'
  end.

(** The attempts and the waits, in the order they happen. *)
Definition schedule (t : list event) : list event :=
  filter (fun ev => match ev with
                    | EvConnect _ | EvSleep _ => true
                    | _ => false
                    end) t.

Fixpoint requests (t : list event) : list request :=
  match t with
  | [] => []
  | EvRequest r :: t' => r :: requests t'
  | _ :: t' => requests t'
  end.

(** [v[k]] for a dict [v], and [k in v]. *)
Definition field (k : string) (v : value) : option value :=
  match v with
  | VDict d => dict_lookup (py k) d
  | _ => None
  end.

Definition has_field (k : string) (v : value) : bool :=
  match field k v with Some _ => true | None => false end.

(** The exception an attempt ends with before any response is read. *)
Definition raised_by (o : outcome) : option exn :=
  match o with
  | ConnectRaises e | ExchangeRaises e => Some e
  | Responds _ _ => None
  end.

(** Whether [HTTPSConnection(...)] returned in an attempt, so that [conn]
    is bound by it. *)
Definition connected (o : outcome) : bool :=
  match o with
  | ConnectRaises _ => false
  | ExchangeRaises _ | Responds _ _ => true
  end.

(** The number of [conn.close()]. *)
Definition closes (t : list event) : nat :=
  List.length (filter (fun ev => match ev with
                                 | EvClose => true
                                 | _ => false
                                 end) t).

(** No connection is in use at the end of [t], nor when a new one is made:
    [pending] tells whether a request was sent over a connection that has
    not been closed since. *)
Fixpoint released (pending : bool) (t : list event) : bool :=
  match t with
  | [] => negb pending
  | EvRequest _ :: t' => released true t'
  | EvClose :: t' => released false t'
  | EvConnect _ :: t' => negb pending && released false t'
  | _ :: t' => released pending t'
  end.

(** Each request in [t] comes right after [conn.timeout = 30]. *)
Fixpoint timeout_before_request (t : list event) : bool :=
  match t with
  | [] => true
  | EvTimeout n :: EvRequest _ :: t' =>
      (n =? 30) && timeout_before_request t'
  | EvRequest _ :: _ => false
  | _ :: t' => timeout_before_request t'
  end.

(** ** The request executor and the endpoint functions *)

Section Executor.

(** Module configuration, read from the process environment at import. *)
Variables QUORA_API_KEY QUORA_API_HOST : pystr.

(** [json.loads]: the decoded value, or the exception it raises
    ([JSONDecodeError], or another one such as [RecursionError]). *)
Variable json_loads : pystr -> exn + value.

(** The network: the outcome of the attempt of the given index. *)
Variable transport : nat -> request -> outcome.

Definition MAX_RETRIES : nat := 3.
Definition RETRY_DELAY : nat := 2.

Definition default_headers : list (pystr * pystr) :=
  [(py "Content-Type", py "application/json");
   (py "x-rapidapi-host", QUORA_API_HOST);
   (py "x-rapidapi-key", QUORA_API_KEY)].

(** The envelopes, in the order of the source. *)
Definition api_error_envelope (status : Z) (error_msg response_data : value)
  : value :=
  VDict [(py "success", VBool false);
         (py "status", VInt status);
         (py "message", error_msg);
         (py "details", response_data)].

Definition success_envelope (status : Z) (response_data : value) : value :=
  VDict [(py "success", VBool true);
         (py "status", VInt status);
         (py "data", response_data)].

Definition decode_error_envelope (status : Z) (e : exn) (data : pystr)
  : value :=
  VDict [(py "success", VBool false);
         (py "status", VInt status);
         (py "message", VStr (py "Failed to decode JSON response"));
         (py "details",
          VDict [(py "error", VStr (exn_str e));
                 (py "raw_data",
                  VStr (if 1000 <? List.length data
                        then firstn 1000 data else data))])].

Definition empty_envelope (status : Z) : value :=
  VDict [(py "success", VBool false);
         (py "status", VInt status);
         (py "message", VStr (py "Empty response from API"))].

Definition exhausted_envelope (e : exn) : value :=
  VDict [(py "success", VBool false);
         (py "status", VInt 500);
         (py "message",
          VStr (py "Request failed after " ++ str_of_nat MAX_RETRIES
                   ++ py " attempts"));
         (py "details", VDict [(py "error", VStr (exn_str e))])].

Definition fallback_envelope : value :=
  VDict [(py "success", VBool false);
         (py "status", VInt 500);
         (py "message", VStr (py "Unexpected error in API request"))].

(** The body of the outer [try] of one attempt. *)
Definition attempt_try (r : request) (attempt : nat) : M unit :=
  emit (EvConnect QUORA_API_HOST) ;;
  match transport attempt r with
  | ConnectRaises e => raise e
  | ExchangeRaises e =>
      bind_conn ;; emit (EvTimeout 30) ;; emit (EvRequest r) ;; raise e
  | Responds status data =>
      bind_conn ;; emit (EvTimeout 30) ;; emit (EvRequest r) ;;
      if nonempty data then
        try_except
          (response_data <- lift (json_loads data) ;;
           if (400 <=? status)%Z then
             error_msg <- lift (value_get response_data (py "message")
                                  (VStr (py "Unknown API error"))) ;;
             return_ (api_error_envelope status error_msg response_data)
           else
             return_ (success_envelope status response_data))
          is_JSONDecodeError
          (fun e => return_ (decode_error_envelope status e data))
      else
        return_ (empty_envelope status)
  end.

(** [except Exception as e:] of one attempt. *)
Definition attempt_except (attempt : nat) (e : exn) : M unit :=
  if attempt <? MAX_RETRIES - 1 then
    let retry_wait := RETRY_DELAY * (attempt + 1) in
    emit (EvSleep retry_wait)
  else
    return_ (exhausted_envelope e).

(** [finally:] of one attempt. *)
Definition attempt_finally : M unit :=
  b <- conn_in_locals ;;
  if b then emit EvClose else ret tt.

Definition attempt_body (r : request) (attempt : nat) : M unit :=
  try_finally
    (try_except (attempt_try r attempt) (fun _ => true)
                (attempt_except attempt))
    attempt_finally.

(** The loop and what follows it. *)
Definition attempts_then (r : request) (after : M unit) : M unit :=
  for_each (range MAX_RETRIES) (attempt_body r) ;; after.

Definition build_query_string (method : pystr)
    (params : option (list (pystr * pystr))) : exn + pystr :=
  if dict_truthy params && pystr_eqb method (py "GET") then
    match urlencode (match params with Some d => d | None => [] end) with
    | inl e => inl e
    | inr q => inr (py "?" ++ q)
    end
  else inr [].

Definition make_api_request (method endpoint : pystr)
    (params headers : option (list (pystr * pystr))) : M unit :=
  let headers :=
    match headers with None => default_headers | Some h => h end in
  query_string <- lift (build_query_string method params) ;;
  attempts_then (mkRequest method (endpoint ++ query_string) headers)
                (return_ fallback_envelope).

Definition QUORA_HEADERS : list (pystr * pystr) :=
  [(py "Content-Type", py "application/json");
   (py "x-rapidapi-host", QUORA_API_HOST);
   (py "x-rapidapi-key", QUORA_API_KEY)].

(** [if x: params[k] = x], for [x] a string or [None] *)
Definition set_if (k : pystr) (x : option pystr)
    (params : list (pystr * pystr)) : list (pystr * pystr) :=
  match x with
  | Some v => if nonempty v then dict_set k v params else params
  | None => params
  end.

(** What [except Exception as e:] of an endpoint function returns. *)
Definition error_object (e : exn) : value :=
  VDict [(py "error", VStr (exn_str e));
         (py "exception_type", VStr (exn_type_name e))].

(** The mapping each endpoint function builds before the call. *)
Definition search_questions_params (query language : pystr)
    (cursor time : option pystr) : list (pystr * pystr) :=
  let params := [(py "query", query); (py "language", language)] in
  let params := set_if (py "cursor") cursor params in
  let params := set_if (py "time") time params in
  params.

Definition search_questions (query language : pystr)
    (cursor time : option pystr) : M unit :=
  try_except
    (let params := search_questions_params query language cursor time in
     v <- call (make_api_request (py "GET") (py "/search_questions")
                  (Some params) (Some QUORA_HEADERS)) ;;
     return_ v)
    (fun _ => true)
    (fun e => return_ (error_object e)).

Definition search_answers_params (query language : pystr)
    (cursor time : option pystr) : list (pystr * pystr) :=
  let params := [(py "query", query); (py "language", language)] in
  let params := set_if (py "cursor") cursor params in
  let params := set_if (py "time") time params in
  params.

Definition search_answers (query language : pystr)
    (cursor time : option pystr) : M unit :=
  try_except
    (let params := search_answers_params query language cursor time in
     v <- call (make_api_request (py "GET") (py "/search_answers")
                  (Some params) (Some QUORA_HEADERS)) ;;
     return_ v)
    (fun _ => true)
    (fun e => return_ (error_object e)).

Definition search_profiles_params (query language : pystr)
    (cursor : option pystr) : list (pystr * pystr) :=
  let params := [(py "query", query); (py "language", language)] in
  let params := set_if (py "cursor") cursor params in
  params.

Definition search_profiles (query language : pystr)
    (cursor : option pystr) : M unit :=
  try_except
    (let params := search_profiles_params query language cursor in
     v <- call (make_api_request (py "GET") (py "/search_profiles")
                  (Some params) (Some QUORA_HEADERS)) ;;
     return_ v)
    (fun _ => true)
    (fun e => return_ (error_object e)).

Definition question_answers_params (url : pystr)
    (cursor sort : option pystr) : list (pystr * pystr) :=
  let params := [(py "url", url)] in
  let params := set_if (py "cursor") cursor params in
  let params := set_if (py "sort") sort params in
  params.

Definition question_answers (url : pystr) (cursor sort : option pystr)
  : M unit :=
  try_except
    (let params := question_answers_params url cursor sort in
     v <- call (make_api_request (py "GET") (py "/question_answers")
                  (Some params) (Some QUORA_HEADERS)) ;;
     return_ v)
    (fun _ => true)
    (fun e => return_ (error_object e)).

Definition question_comments_params (url : pystr) (cursor : option pystr)
  : list (pystr * pystr) :=
  let params := [(py "url", url)] in
  let params := set_if (py "cursor") cursor params in
  params.

Definition question_comments (url : pystr) (cursor : option pystr)
  : M unit :=
  try_except
    (let params := question_comments_params url cursor in
     v <- call (make_api_request (py "GET") (py "/question_comments")
                  (Some params) (Some QUORA_HEADERS)) ;;
     return_ v)
    (fun _ => true)
    (fun e => return_ (error_object e)).

(** ** The vocabulary of the properties *)

(** The [for] loop of [make_api_request]. *)
Definition loop (r : request) : M unit :=
  for_each (range MAX_RETRIES) (attempt_body r).

(** The request every attempt of a call sends. *)
Definition sent_request (method endpoint qs : pystr)
    (headers : option (list (pystr * pystr))) : request :=
  mkRequest method (endpoint ++ qs)
    (match headers with None => default_headers | Some h => h end).

(** Attempts and waits of a call whose attempt [k] is the last one. *)
Definition expected_schedule (k : nat) : list event :=
  flat_map (fun a => [EvConnect QUORA_API_HOST;
                      EvSleep (RETRY_DELAY * (a + 1))]) (seq 0 k)
  ++ [EvConnect QUORA_API_HOST].

(** The envelope of a completed round trip with the given status and
    body: the four [return]s of the inner [if data:]. *)
Definition body_envelope (status : Z) (data : pystr) (v : value) : Prop :=
  (data = [] /\ v = empty_envelope status)
  \/ (exists e, data <> [] /\ json_loads data = inl e
                /\ is_JSONDecodeError e = true
                /\ v = decode_error_envelope status e data)
  \/ (exists d, data <> [] /\ json_loads data = inr d
                /\ (status < 400)%Z /\ v = success_envelope status d)
  \/ (exists d m, data <> [] /\ json_loads data = inr d
                  /\ (400 <= status)%Z
                  /\ value_get d (py "message")
                       (VStr (py "Unknown API error")) = inr m
                  /\ v = api_error_envelope status m d).

(** The values a [return] inside the loop gives. *)
Definition in_loop_envelope (r : request) (v : value) : Prop :=
  (exists a status data,
      a < MAX_RETRIES /\ transport a r = Responds status data
      /\ body_envelope status data v)
  \/ (exists e, v = exhausted_envelope e).

(** The invariant of the Result Envelope as the specification words it,
    and as the executor keeps it. *)
Definition envelope_invariant (v : value) : Prop :=
  exists b, field "success" v = Some (VBool b)
    /\ (has_field "data" v = true <-> b = true)
    /\ (has_field "message" v = true /\ has_field "details" v = true
        <-> b = false).

Definition envelope_invariant_amended (v : value) : Prop :=
  exists b, field "success" v = Some (VBool b)
    /\ (has_field "data" v = true <-> b = true)
    /\ (has_field "message" v = true <-> b = false)
    /\ (has_field "details" v = true -> b = false)
    /\ (b = false ->
        has_field "details" v = true
        \/ exists status, v = empty_envelope status).



(** What a call of an endpoint function gives its caller: a value, which
    is an envelope the executor returned from its loop for the request
    with the given path and query string, or the error object of an
    exception raised while the query string was built. *)
Definition endpoint_returns (path : pystr) (params : list (pystr * pystr))
    (body : M unit) : Prop :=
  exists v,
    snd (run body) = inr v
    /\ ((exists qs,
            build_query_string (py "GET") (Some params) = inr qs
            /\ in_loop_envelope
                 (sent_request (py "GET") path qs (Some QUORA_HEADERS)) v)
        \/ (exists e,
               build_query_string (py "GET") (Some params) = inl e
               /\ v = error_object e)).

(** A run of the loop from attempt [a] on: attempts that go on to the
    next one, then one that returns. *)
Inductive loop_run (r : request)
  : nat -> bool -> list event -> bool -> value -> Prop :=
| loop_run_return a s t s' v :
    attempt_body r a s = (t, s', Returned v) ->
    loop_run r a s t s' v
| loop_run_next a s t0 s0 t s' v :
    attempt_body r a s = (t0, s0, Normal tt) ->
    loop_run r (S a) s0 t s' v ->
    loop_run r a s (t0 ++ t) s' v.

(** The events of an attempt up to its [except] or [return], and those of
    its [finally], when [conn] was bound before it or not. *)
Definition attempt_begins (r : request) (a : nat) : list event :=
  EvConnect QUORA_API_HOST
  :: (if connected (transport a r) then [EvTimeout 30; EvRequest r] else []).

Definition attempt_ends (r : request) (a : nat) (bound : bool) : list event :=
  if bound || connected (transport a r) then [EvClose] else [].

(** What an endpoint function does with its mapping: when the mapping
    can be encoded, every request it sends is the [GET] of the path and the
    encoded mapping with [QUORA_HEADERS]; when not, it sends nothing and
    returns the error object of the exception. *)
Definition endpoint_behaviour (path : pystr) (params : list (pystr * pystr))
    (body : M unit) : Prop :=
  match urlencode params with
  | inr q =>
      Forall (eq (mkRequest (py "GET") (path ++ py "?" ++ q) QUORA_HEADERS))
        (requests (fst (run body)))
  | inl e => run body = ([], inr (error_object e))
  end.

(** The two shapes of what an endpoint function returns, told apart by
    their keys. *)
Definition envelope_shape (v : value) : Prop :=
  has_field "success" v = true /\ has_field "status" v = true
  /\ has_field "error" v = false /\ has_field "exception_type" v = false.

Definition error_object_shape (v : value) : Prop :=
  has_field "error" v = true /\ has_field "exception_type" v = true
  /\ has_field "success" v = false /\ has_field "status" v = false.

(** What a trace of a call keeps to: at most three attempts, at most six
    seconds of sleep, the timeout set before each request, and no
    connection left in use. *)
Definition bounded_effort (t : list event) : Prop :=
  attempts_made t <= MAX_RETRIES
  /\ list_sum (sleeps t) <= 6
  /\ List.length (requests t) <= attempts_made t
  /\ timeout_before_request t = true
  /\ released false t = true.



(** ** Properties *)

Unset Implicit Arguments.

(** *** Sequencing *)

Lemma bind_Normal (A B : Type) (m : M A) (f : A -> M B) s t s' a :
  m s = (t, s', Normal a) ->
  bind m f s = (let '(t', s'', c) := f a s' in (t ++ t', s'', c)).
Proof. intros E. unfold bind. rewrite E. reflexivity. Qed.

Lemma bind_Returned (A B : Type) (m : M A) (f : A -> M B) s t s' v :
  m s = (t, s', Returned v) -> bind m f s = (t, s', Returned v).
Proof. intros E. unfold bind. rewrite E. reflexivity. Qed.

Lemma schedule_app (t t' : list event) :
  schedule (t ++ t') = schedule t ++ schedule t'.
Proof. unfold schedule. apply filter_app. Qed.

Lemma requests_app (t t' : list event) :
  requests (t ++ t') = requests t ++ requests t'.
Proof.
  induction t as [|ev t IH]; [reflexivity|].
  destruct ev; cbn; rewrite IH; reflexivity.
Qed.

Lemma attempts_made_schedule (t : list event) :
  attempts_made (schedule t) = attempts_made t.
Proof.
  unfold attempts_made, schedule.
  induction t as [|ev t IH]; [reflexivity|].
  destruct ev; cbn; congruence.
Qed.

Lemma sleeps_schedule (t : list event) : sleeps (schedule t) = sleeps t.
Proof.
  unfold schedule.
  induction t as [|ev t IH]; [reflexivity|].
  destruct ev; cbn; congruence.
Qed.

(** *** One attempt *)

Ltac ev :=
  cbn -[Nat.ltb Nat.sub Nat.mul Nat.add MAX_RETRIES RETRY_DELAY Z.leb py
        firstn List.length].

Ltac step_attempt :=
  unfold attempt_body, attempt_try, attempt_except, attempt_finally,
    try_finally, try_except, bind, emit, raise, return_, ret, lift,
    bind_conn, conn_in_locals.

(** A transport exception before the last attempt: wait and go on. *)
Lemma attempt_retries r a s e :
  raised_by (transport a r) = Some e -> a < MAX_RETRIES - 1 ->
  exists t s',
    attempt_body r a s = (t, s', Normal tt)
    /\ schedule t = [EvConnect QUORA_API_HOST;
                     EvSleep (RETRY_DELAY * (a + 1))].
Proof.
  intros He Ha. apply Nat.ltb_lt in Ha. step_attempt.
  destruct (transport a r) as [e'|e'|st d]; cbn in He; inversion He; subst;
    ev; rewrite Ha; destruct s; ev; eauto.
Qed.

(** A transport exception at the last attempt: the exhaustion envelope. *)
Lemma attempt_exhausts r a s e :
  raised_by (transport a r) = Some e -> ~ a < MAX_RETRIES - 1 ->
  exists t s',
    attempt_body r a s = (t, s', Returned (exhausted_envelope e))
    /\ schedule t = [EvConnect QUORA_API_HOST].
Proof.
  intros He Ha. apply Nat.ltb_nlt in Ha. step_attempt.
  destruct (transport a r) as [e'|e'|st d]; cbn in He; inversion He; subst;
    ev; rewrite Ha; destruct s; ev; eauto.
Qed.

Lemma attempt_success r a s status data d :
  transport a r = Responds status data -> data <> [] ->
  json_loads data = inr d -> (status < 400)%Z ->
  exists t s',
    attempt_body r a s = (t, s', Returned (success_envelope status d))
    /\ schedule t = [EvConnect QUORA_API_HOST].
Proof.
  intros Hr Hd Hj Hs. apply Z.leb_gt in Hs. step_attempt.
  rewrite Hr. destruct data as [|c data]; [congruence|]. ev.
  rewrite Hj. ev. rewrite Hs. ev. eauto.
Qed.

Lemma attempt_api_error r a s status data d m :
  transport a r = Responds status data -> data <> [] ->
  json_loads data = inr d -> (400 <= status)%Z ->
  value_get d (py "message") (VStr (py "Unknown API error")) = inr m ->
  exists t s',
    attempt_body r a s = (t, s', Returned (api_error_envelope status m d))
    /\ schedule t = [EvConnect QUORA_API_HOST].
Proof.
  intros Hr Hd Hj Hs Hm. apply Z.leb_le in Hs. step_attempt.
  rewrite Hr. destruct data as [|c data]; [congruence|]. ev.
  rewrite Hj. ev. rewrite Hs. ev. rewrite Hm. ev. eauto.
Qed.

Lemma attempt_decode_error r a s status data e :
  transport a r = Responds status data -> data <> [] ->
  json_loads data = inl e -> is_JSONDecodeError e = true ->
  exists t s',
    attempt_body r a s
    = (t, s', Returned (decode_error_envelope status e data))
    /\ schedule t = [EvConnect QUORA_API_HOST].
Proof.
  intros Hr Hd Hj He. step_attempt.
  rewrite Hr. destruct data as [|c data]; [congruence|]. ev.
  rewrite Hj. ev. rewrite He. ev. eauto.
Qed.

Lemma attempt_empty r a s status :
  transport a r = Responds status [] ->
  exists t s',
    attempt_body r a s = (t, s', Returned (empty_envelope status))
    /\ schedule t = [EvConnect QUORA_API_HOST].
Proof.
  intros Hr. step_attempt. rewrite Hr. ev. eauto.
Qed.

(** *** The loop *)

(** When the attempts before [k] fail in the transport and attempt [k]
    returns, the loop returns that value after [k] waits. *)
Lemma loop_returns_at r k v :
  k < MAX_RETRIES ->
  (forall a, a < k -> raised_by (transport a r) <> None) ->
  (forall s, exists t s',
      attempt_body r k s = (t, s', Returned v)
      /\ schedule t = [EvConnect QUORA_API_HOST]) ->
  forall s, exists t s',
    loop r s = (t, s', Returned v) /\ schedule t = expected_schedule k.
Proof.
  intros Hk Hprev Hret s. unfold MAX_RETRIES in Hk.
  assert (Hfall : forall a s0, a < k -> exists t s',
             attempt_body r a s0 = (t, s', Normal tt)
             /\ schedule t = [EvConnect QUORA_API_HOST;
                              EvSleep (RETRY_DELAY * (a + 1))]).
  { intros a s0 Ha. specialize (Hprev a Ha).
    destruct (raised_by (transport a r)) as [e|] eqn:E; [|congruence].
    apply (attempt_retries r a s0 e E). unfold MAX_RETRIES. lia. }
  unfold loop, range, MAX_RETRIES. cbn [seq for_each].
  destruct k as [|[|[|k]]]; try lia.
  - destruct (Hret s) as (t & s' & E & Hs).
    erewrite bind_Returned by exact E. eauto.
  - destruct (Hfall 0 s ltac:(lia)) as (t0 & s0 & E0 & H0).
    destruct (Hret s0) as (t & s' & E & Hs).
    erewrite bind_Normal by exact E0.
    erewrite bind_Returned by exact E.
    do 2 eexists; split; [reflexivity|].
    rewrite schedule_app, H0, Hs. reflexivity.
  - destruct (Hfall 0 s ltac:(lia)) as (t0 & s0 & E0 & H0).
    destruct (Hfall 1 s0 ltac:(lia)) as (t1 & s1 & E1 & H1).
    destruct (Hret s1) as (t & s' & E & Hs).
    erewrite bind_Normal by exact E0.
    erewrite bind_Normal by exact E1.
    erewrite bind_Returned by exact E.
    do 2 eexists; split; [reflexivity|].
    rewrite !schedule_app, H0, H1, Hs. reflexivity.
Qed.

(** Every attempt either goes on to the next one, which only an attempt
    before the last does, or returns from inside the loop. *)
Lemma attempt_body_total r a s :
  exists t s',
    (attempt_body r a s = (t, s', Normal tt) /\ a < MAX_RETRIES - 1)
    \/ (exists v,
           attempt_body r a s = (t, s', Returned v)
           /\ ((exists status data,
                   transport a r = Responds status data
                   /\ body_envelope status data v)
               \/ exists e, v = exhausted_envelope e)).
Proof.
  assert (Hraise : forall t0 s0 e,
    exists t s',
      (try_finally (try_except (fun _ => (t0, s0, Raised e))
                      (fun _ => true) (attempt_except a))
                   attempt_finally s = (t, s', Normal tt)
       /\ a < MAX_RETRIES - 1)
      \/ (exists v,
             try_finally (try_except (fun _ => (t0, s0, Raised e))
                            (fun _ => true) (attempt_except a))
                         attempt_finally s = (t, s', Returned v)
             /\ exists e', v = exhausted_envelope e')).
  { intros t0 s0 e.
    unfold attempt_except, attempt_finally, try_finally, try_except, bind,
      emit, return_, ret, conn_in_locals.
    destruct (a <? MAX_RETRIES - 1) eqn:Ha.
    - apply Nat.ltb_lt in Ha. destruct s0; ev; eauto.
    - destruct s0; ev; eauto 8. }
  destruct (transport a r) as [e|e|status data] eqn:Hr.
  - destruct (Hraise [EvConnect QUORA_API_HOST] s e)
      as (t & s' & [[E Ha]|(v & E & Hv)]);
      exists t, s'; [left|right; exists v]; split; auto;
      rewrite <- E; step_attempt; rewrite Hr; reflexivity.
  - destruct (Hraise [EvConnect QUORA_API_HOST; EvTimeout 30; EvRequest r]
                     true e)
      as (t & s' & [[E Ha]|(v & E & Hv)]);
      exists t, s'; [left|right; exists v]; split; auto;
      rewrite <- E; step_attempt; rewrite Hr; reflexivity.
  - destruct data as [|c data].
    { destruct (attempt_empty r a s status Hr) as (t & s' & E & _).
      exists t, s'. right. eexists. split; [exact E|].
      left. exists status, []. unfold body_envelope. auto. }
    destruct (json_loads (c :: data)) as [e|d] eqn:Hj.
    + destruct (is_JSONDecodeError e) eqn:He.
      * destruct (attempt_decode_error r a s status (c :: data) e Hr
                    ltac:(discriminate) Hj He) as (t & s' & E & _).
        exists t, s'. right. eexists. split; [exact E|].
        left. exists status, (c :: data). split; [reflexivity|].
        unfold body_envelope.
        right. left. exists e. repeat split; auto; discriminate.
      * destruct (Hraise
                    [EvConnect QUORA_API_HOST; EvTimeout 30; EvRequest r]
                    true e)
          as (t & s' & [[E Ha]|(v & E & Hv)]);
          exists t, s'; [left|right; exists v]; split; auto;
          rewrite <- E; step_attempt; rewrite Hr; ev; rewrite Hj; ev;
          rewrite He; reflexivity.
    + destruct (Z.leb_spec 400 status) as [Hs|Hs].
      * destruct (value_get d (py "message")
                    (VStr (py "Unknown API error"))) as [e|m] eqn:Hm.
        -- assert (He : is_JSONDecodeError e = false).
           { unfold value_get in Hm.
             destruct d as [| | | | | |dd];
               try (inversion Hm; reflexivity).
             destruct (dict_lookup (py "message") dd); discriminate. }
           destruct (Hraise
                       [EvConnect QUORA_API_HOST; EvTimeout 30; EvRequest r]
                       true e)
             as (t & s' & [[E Ha]|(v & E & Hv)]);
             exists t, s'; [left|right; exists v]; split; auto;
             rewrite <- E; step_attempt; rewrite Hr; ev; rewrite Hj; ev;
             rewrite (proj2 (Z.leb_le 400 status) Hs); ev; rewrite Hm;
             ev; rewrite He; reflexivity.
        -- destruct (attempt_api_error r a s status (c :: data) d m Hr
                       ltac:(discriminate) Hj Hs Hm) as (t & s' & E & _).
           exists t, s'. right. eexists. split; [exact E|].
           left. exists status, (c :: data). split; [reflexivity|].
        unfold body_envelope.
           right. right. right. exists d, m.
           repeat split; auto; discriminate.
      * destruct (attempt_success r a s status (c :: data) d Hr
                    ltac:(discriminate) Hj Hs) as (t & s' & E & _).
        exists t, s'. right. eexists. split; [exact E|].
        left. exists status, (c :: data). split; [reflexivity|].
        unfold body_envelope.
        right. right. left. exists d. repeat split; auto; discriminate.
Qed.

(** The loop always returns, and what it returns is an in-loop envelope. *)
Lemma loop_total r s :
  exists t s' v, loop r s = (t, s', Returned v) /\ in_loop_envelope r v.
Proof.
  assert (Hin : forall a v, a < MAX_RETRIES ->
            (exists status data,
                transport a r = Responds status data
                /\ body_envelope status data v)
            \/ (exists e, v = exhausted_envelope e) ->
            in_loop_envelope r v).
  { intros a v Ha [(status & data & Hr & Hb)|He]; [left|right]; eauto 6. }
  unfold loop, range, MAX_RETRIES. cbn [seq for_each].
  destruct (attempt_body_total r 0 s) as (t0 & s0 & [[E0 _]|(v & E0 & Hv)]).
  2:{ erewrite bind_Returned by exact E0. do 3 eexists. split; [reflexivity|].
      apply (Hin 0); [unfold MAX_RETRIES; lia | exact Hv]. }
  erewrite bind_Normal by exact E0.
  destruct (attempt_body_total r 1 s0) as (t1 & s1 & [[E1 _]|(v & E1 & Hv)]).
  2:{ erewrite bind_Returned by exact E1. do 3 eexists. split; [reflexivity|].
      apply (Hin 1); [unfold MAX_RETRIES; lia | exact Hv]. }
  erewrite bind_Normal by exact E1.
  destruct (attempt_body_total r 2 s1)
    as (t2 & s2 & [[E2 Hlt]|(v & E2 & Hv)]).
  { unfold MAX_RETRIES in Hlt. lia. }
  erewrite bind_Returned by exact E2. do 3 eexists. split; [reflexivity|].
  apply (Hin 2); [unfold MAX_RETRIES; lia | exact Hv].
Qed.

(** A call that gets to the loop is the loop followed by the fallback. *)
Lemma run_make_api_request method endpoint params headers qs t s' v :
  build_query_string method params = inr qs ->
  loop (sent_request method endpoint qs headers) false
  = (t, s', Returned v) ->
  run (make_api_request method endpoint params headers) = (t, inr v).
Proof.
  intros Hq E. unfold run, make_api_request, attempts_then. rewrite Hq.
  unfold lift. erewrite bind_Normal by reflexivity.
  fold (sent_request method endpoint qs headers).
  fold (loop (sent_request method endpoint qs headers)).
  erewrite bind_Returned by exact E. reflexivity.
Qed.

(** *** A call of the executor *)

(** A call whose attempts before [k] fail in the transport and whose
    attempt [k] returns [v]: it returns [v], after [k] waits and without
    an attempt more. *)
Lemma run_returns_at method endpoint params headers qs k v :
  build_query_string method params = inr qs ->
  k < MAX_RETRIES ->
  (forall a, a < k ->
     raised_by (transport a (sent_request method endpoint qs headers))
     <> None) ->
  (forall s, exists t s',
      attempt_body (sent_request method endpoint qs headers) k s
      = (t, s', Returned v)
      /\ schedule t = [EvConnect QUORA_API_HOST]) ->
  snd (run (make_api_request method endpoint params headers)) = inr v
  /\ schedule (fst (run (make_api_request method endpoint params headers)))
     = expected_schedule k.
Proof.
  intros Hq Hk Hprev Hret.
  destruct (loop_returns_at _ k v Hk Hprev Hret false) as (t & s' & E & Hs).
  rewrite (run_make_api_request method endpoint params headers qs t s' v
             Hq E).
  split; [reflexivity|exact Hs].
Qed.

Lemma expected_schedule_counts t k :
  schedule t = expected_schedule k ->
  attempts_made t = S k
  /\ sleeps t = map (fun a => RETRY_DELAY * (a + 1)) (seq 0 k).
Proof.
  intros Hs.
  rewrite <- (attempts_made_schedule t), <- (sleeps_schedule t), Hs.
  clear Hs. unfold expected_schedule.
  set (f := fun a => [EvConnect QUORA_API_HOST;
                      EvSleep (RETRY_DELAY * (a + 1))]).
  set (g := fun a => RETRY_DELAY * (a + 1)).
  generalize 0 as i.
  induction k as [|k IH]; intros i; [split; reflexivity|].
  destruct (IH (S i)) as [IH1 IH2]. cbn [seq flat_map map].
  split.
  - unfold attempts_made in *. unfold f at 1.
    cbn [app filter is_connect List.length]. rewrite IH1. reflexivity.
  - unfold f at 1. cbn [app sleeps]. rewrite IH2. reflexivity.
Qed.



(** A call either raises while the query string is built, before any
    attempt, or gets to the loop and returns from inside it. *)
Lemma make_api_request_cases method endpoint params headers :
  (exists e,
      build_query_string method params = inl e
      /\ run (make_api_request method endpoint params headers) = ([], inl e))
  \/ (exists qs t s' v,
         build_query_string method params = inr qs
         /\ loop (sent_request method endpoint qs headers) false
            = (t, s', Returned v)
         /\ run (make_api_request method endpoint params headers)
            = (t, inr v)
         /\ in_loop_envelope (sent_request method endpoint qs headers) v).
Proof.
  destruct (build_query_string method params) as [e|qs] eqn:Hq.
  - left. exists e. split; [reflexivity|].
    unfold run, make_api_request. rewrite Hq. reflexivity.
  - right.
    destruct (loop_total (sent_request method endpoint qs headers) false)
      as (t & s' & v & E & Hv).
    exists qs, t, s', v. split; [reflexivity|]. split; [exact E|].
    split; [|exact Hv].
    apply (run_make_api_request method endpoint params headers qs t s' v
             Hq E).
Qed.

(** *** The requests sent *)

Lemma bind_requests (A B : Type) (m : M A) (f : A -> M B)
    (P : request -> Prop) s :
  (forall s0, Forall P (requests (fst (fst (m s0))))) ->
  (forall a s0, Forall P (requests (fst (fst (f a s0))))) ->
  Forall P (requests (fst (fst (bind m f s)))).
Proof.
  intros Hm Hf. unfold bind. specialize (Hm s).
  destruct (m s) as [[t s'] [a|v|e]]; cbn in *; try exact Hm.
  specialize (Hf a s'). destruct (f a s') as [[t' s''] c]. cbn in *.
  rewrite requests_app. apply Forall_app. split; assumption.
Qed.

(** Every attempt sends the same request, at most once. *)
Lemma attempt_body_requests r a s :
  Forall (eq r) (requests (fst (fst (attempt_body r a s)))).
Proof.
  step_attempt.
  repeat (ev; match goal with
    | |- context [transport a r] => destruct (transport a r)
    | |- context [nonempty ?d] => destruct d
    | |- context [json_loads ?d] => destruct (json_loads d)
    | |- context [is_JSONDecodeError ?e] => destruct (is_JSONDecodeError e)
    | |- context [(400 <=? ?x)%Z] => destruct (400 <=? x)%Z
    | |- context [value_get ?x ?y ?z] => destruct (value_get x y z)
    | |- context [a <? ?m] => destruct (a <? m)
    | |- context [if s then _ else _] => destruct s
    end); ev; repeat constructor.
Qed.

Lemma loop_requests r s :
  Forall (eq r) (requests (fst (fst (loop r s)))).
Proof.
  unfold loop. generalize (range MAX_RETRIES) as l. intros l. revert s.
  induction l as [|a l IH]; intros s; cbn [for_each].
  - constructor.
  - apply bind_requests.
    + intros s0. apply attempt_body_requests.
    + intros _ s0. apply IH.
Qed.

Lemma make_api_request_requests method endpoint params headers qs :
  build_query_string method params = inr qs ->
  Forall (eq (sent_request method endpoint qs headers))
    (requests (fst (run (make_api_request method endpoint params headers)))).
Proof.
  intros Hq.
  destruct (loop_total (sent_request method endpoint qs headers) false)
    as (t & s' & v & E & _).
  rewrite (run_make_api_request method endpoint params headers qs t s' v
             Hq E).
  pose proof (loop_requests (sent_request method endpoint qs headers) false)
    as H.
  rewrite E in H. exact H.
Qed.

(** *** The endpoint functions *)

(** An endpoint function returns what the executor returns, with the same
    events, and the error object when the executor raises. *)
Lemma endpoint_run (path : pystr) (params : list (pystr * pystr)) :
  run (try_except
         (v <- call (make_api_request (py "GET") path (Some params)
                       (Some QUORA_HEADERS)) ;;
          return_ v)
         (fun _ => true)
         (fun e => return_ (error_object e)))
  = (fst (run (make_api_request (py "GET") path (Some params)
                 (Some QUORA_HEADERS))),
     match snd (run (make_api_request (py "GET") path (Some params)
                       (Some QUORA_HEADERS))) with
     | inr v => inr v
     | inl e => inr (error_object e)
     end).
Proof.
  unfold run, try_except, bind, call, return_.
  destruct (make_api_request (py "GET") path (Some params)
              (Some QUORA_HEADERS) false) as [[t s'] [u|v|e]];
    cbn [fst snd]; rewrite ?app_nil_r; reflexivity.
Qed.

(** What the loop returns keeps the invariant of the envelope, and is
    not the envelope written after the loop. *)
Lemma in_loop_envelope_invariant r v :
  in_loop_envelope r v -> envelope_invariant_amended v.
Proof.
  intros [(a & status & data & _ & _ & Hb)|[e ->]].
  - destruct Hb as [[_ ->]|[(e & _ & _ & _ & ->)|[(d & _ & _ & _ & ->)
                   |(d & m & _ & _ & _ & _ & ->)]]].
    + exists false. split; [reflexivity|].
      split; [split; discriminate|]. split; [split; reflexivity|].
      split; [discriminate|]. intros _. right. exists status. reflexivity.
    + exists false. split; [reflexivity|].
      split; [split; discriminate|]. split; [split; reflexivity|].
      split; [reflexivity|]. intros _. left. reflexivity.
    + exists true. split; [reflexivity|].
      split; [split; reflexivity|]. split; [split; discriminate|].
      split; discriminate.
    + exists false. split; [reflexivity|].
      split; [split; discriminate|]. split; [split; reflexivity|].
      split; [reflexivity|]. intros _. left. reflexivity.
  - exists false. split; [reflexivity|].
    split; [split; discriminate|]. split; [split; reflexivity|].
    split; [reflexivity|]. intros _. left. reflexivity.
Qed.

Lemma in_loop_envelope_not_fallback r v :
  in_loop_envelope r v -> v <> fallback_envelope.
Proof.
  intros [(a & status & data & _ & _ & Hb)|[e ->]] H.
  - destruct Hb as [[_ ->]|[(e & _ & _ & _ & ->)|[(d & _ & _ & _ & ->)
                   |(d & m & _ & _ & _ & _ & ->)]]];
      try (apply (f_equal (has_field "details")) in H; discriminate H).
    + apply (f_equal (field "message")) in H. vm_compute in H.
      discriminate H.
    + apply (f_equal (has_field "data")) in H. discriminate H.
  - apply (f_equal (has_field "details")) in H. discriminate H.
Qed.

(** ** The executor's outcomes *)

(** C3: when every transport attempt raises, the executor makes exactly
    three attempts, waits 2 seconds before the second and 4 seconds before
    the third, and after the third returns, without a further wait, the
    failure envelope with status 500 whose message names the three
    attempts. *)
Theorem transport_failures_exhaust_three_attempts
    method endpoint params headers qs e :
  build_query_string method params = inr qs ->
  (forall a, a < MAX_RETRIES ->
     raised_by (transport a (sent_request method endpoint qs headers))
     <> None) ->
  raised_by (transport 2 (sent_request method endpoint qs headers))
  = Some e ->
  snd (run (make_api_request method endpoint params headers))
  = inr (exhausted_envelope e)
  /\ schedule (fst (run (make_api_request method endpoint params headers)))
     = [EvConnect QUORA_API_HOST; EvSleep 2;
        EvConnect QUORA_API_HOST; EvSleep 4;
        EvConnect QUORA_API_HOST]
  /\ attempts_made
       (fst (run (make_api_request method endpoint params headers))) = 3
  /\ sleeps (fst (run (make_api_request method endpoint params headers)))
     = [2; 4]
  /\ field "success" (exhausted_envelope e) = Some (VBool false)
  /\ field "status" (exhausted_envelope e) = Some (VInt 500)
  /\ field "message" (exhausted_envelope e)
     = Some (VStr (py "Request failed after 3 attempts")).
Proof.
  intros Hq Hall He.
  destruct (run_returns_at method endpoint params headers qs 2
              (exhausted_envelope e)) as [Hv Hs].
  - exact Hq.
  - unfold MAX_RETRIES; lia.
  - intros a Ha. apply Hall. unfold MAX_RETRIES; lia.
  - intros s. apply attempt_exhausts; [exact He|unfold MAX_RETRIES; lia].
  - destruct (expected_schedule_counts _ 2 Hs) as [Hn Hw].
    repeat split; assumption || reflexivity.
Qed.

(** C1, amended: every envelope the executor returns has [data] exactly
    when [success] is true and [message] exactly when [success] is false;
    [details] is present only on failure, and on every failure envelope
    but the one of an empty body. *)
Theorem returned_envelope_invariant method endpoint params headers v :
  snd (run (make_api_request method endpoint params headers)) = inr v ->
  envelope_invariant_amended v.
Proof.
  intros Hv.
  destruct (make_api_request_cases method endpoint params headers)
    as [(e & _ & E)|(qs & t & s' & v' & _ & _ & E & Hin)];
    rewrite E in Hv; cbn in Hv; [discriminate|].
  inversion Hv; subst v'.
  apply (in_loop_envelope_invariant _ _ Hin).
Qed.

(** C10, amended: the code after the loop never runs, whatever it is: the
    loop always returns from inside, one of the four envelopes of a
    completed round trip or the exhaustion envelope.  So a call never
    returns the fallback envelope: it raises while the query string is
    built, before any attempt, or returns from inside the loop. *)
Theorem fallback_envelope_unreachable method endpoint params headers :
  (forall r after s,
      exists t s' v,
        attempts_then r after s = (t, s', Returned v)
        /\ in_loop_envelope r v)
  /\ snd (run (make_api_request method endpoint params headers))
     <> inr fallback_envelope
  /\ ((exists e,
          build_query_string method params = inl e
          /\ run (make_api_request method endpoint params headers)
             = ([], inl e))
      \/ (exists qs v,
             build_query_string method params = inr qs
             /\ snd (run (make_api_request method endpoint params headers))
                = inr v
             /\ in_loop_envelope
                  (sent_request method endpoint qs headers) v)).
Proof.
  split; [|split].
  - intros r after s.
    destruct (loop_total r s) as (t & s' & v & E & Hv).
    exists t, s', v. split; [|exact Hv].
    unfold attempts_then. fold (loop r).
    erewrite bind_Returned by exact E. reflexivity.
  - destruct (make_api_request_cases method endpoint params headers)
      as [(e & _ & E)|(qs & t & s' & v & _ & _ & E & Hin)];
      rewrite E; cbn; [discriminate|].
    intros H. inversion H.
    apply (in_loop_envelope_not_fallback _ _ Hin). assumption.
  - destruct (make_api_request_cases method endpoint params headers)
      as [(e & Hq & E)|(qs & t & s' & v & Hq & _ & E & Hin)].
    + left. exists e. split; assumption.
    + right. exists qs, v. rewrite E. repeat split; assumption.
Qed.

(** ** The endpoint functions' outcomes *)


Lemma endpoint_returns_value (path : pystr) (params : list (pystr * pystr)) :
  endpoint_returns path params
    (try_except
       (v <- call (make_api_request (py "GET") path (Some params)
                     (Some QUORA_HEADERS)) ;;
        return_ v)
       (fun _ => true)
       (fun e => return_ (error_object e))).
Proof.
  unfold endpoint_returns. rewrite endpoint_run. cbn [snd].
  destruct (make_api_request_cases (py "GET") path (Some params)
              (Some QUORA_HEADERS))
    as [(e & Hq & E)|(qs & t & s' & v & Hq & _ & E & Hin)];
    rewrite E; cbn [snd].
  - exists (error_object e). split; [reflexivity|]. right. eauto.
  - exists v. split; [reflexivity|]. left. eauto.
Qed.

(** C8: each of the five endpoint functions returns a value to its
    caller, whatever its arguments and whatever the network does: an
    envelope returned by the executor, or, when building the query string
    raised, the error object of that exception. *)
Theorem endpoints_always_return query language url cursor time sort :
  endpoint_returns (py "/search_questions")
    (search_questions_params query language cursor time)
    (search_questions query language cursor time)
  /\ endpoint_returns (py "/search_answers")
       (search_answers_params query language cursor time)
       (search_answers query language cursor time)
  /\ endpoint_returns (py "/search_profiles")
       (search_profiles_params query language cursor)
       (search_profiles query language cursor)
  /\ endpoint_returns (py "/question_answers")
       (question_answers_params url cursor sort)
       (question_answers url cursor sort)
  /\ endpoint_returns (py "/question_comments")
       (question_comments_params url cursor)
       (question_comments url cursor).
Proof.
  repeat split; apply endpoint_returns_value.
Qed.

(** C9: in every endpoint function an optional argument given as the empty
    string behaves as one not given: the mapping built is the same, the key
    is not in it, and the whole call is the same. *)
Theorem empty_optional_same_as_omitted query language url cursor time sort :
  (search_questions_params query language (Some []) time
   = search_questions_params query language None time
   /\ search_questions_params query language cursor (Some [])
      = search_questions_params query language cursor None
   /\ search_answers_params query language (Some []) time
      = search_answers_params query language None time
   /\ search_answers_params query language cursor (Some [])
      = search_answers_params query language cursor None
   /\ search_profiles_params query language (Some [])
      = search_profiles_params query language None
   /\ question_answers_params url (Some []) sort
      = question_answers_params url None sort
   /\ question_answers_params url cursor (Some [])
      = question_answers_params url cursor None
   /\ question_comments_params url (Some [])
      = question_comments_params url None)
  /\ (search_questions query language (Some []) time
      = search_questions query language None time
      /\ search_questions query language cursor (Some [])
         = search_questions query language cursor None
      /\ search_answers query language (Some []) time
         = search_answers query language None time
      /\ search_answers query language cursor (Some [])
         = search_answers query language cursor None
      /\ search_profiles query language (Some [])
         = search_profiles query language None
      /\ question_answers url (Some []) sort
         = question_answers url None sort
      /\ question_answers url cursor (Some [])
         = question_answers url cursor None
      /\ question_comments url (Some [])
         = question_comments url None)
  /\ (dict_lookup (py "cursor")
        (search_questions_params query language (Some []) (Some [])) = None
      /\ dict_lookup (py "time")
           (search_questions_params query language (Some []) (Some []))
         = None
      /\ dict_lookup (py "cursor")
           (search_answers_params query language (Some []) (Some [])) = None
      /\ dict_lookup (py "time")
           (search_answers_params query language (Some []) (Some [])) = None
      /\ dict_lookup (py "cursor")
           (search_profiles_params query language (Some [])) = None
      /\ dict_lookup (py "cursor")
           (question_answers_params url (Some []) (Some [])) = None
      /\ dict_lookup (py "sort")
           (question_answers_params url (Some []) (Some [])) = None
      /\ dict_lookup (py "cursor")
           (question_comments_params url (Some [])) = None).
Proof.
  repeat split; reflexivity.
Qed.

(** ** Every run of the loop *)

(** The events and the end of one attempt, whatever the network did: it
    waits and goes on, before the last attempt only, or it returns. *)
Lemma attempt_body_shape r a s :
  (attempt_body r a s
   = (attempt_begins r a ++ [EvSleep (RETRY_DELAY * (a + 1))]
      ++ attempt_ends r a s,
      s || connected (transport a r), Normal tt)
   /\ a < MAX_RETRIES - 1)
  \/ (exists v,
         attempt_body r a s
         = (attempt_begins r a ++ attempt_ends r a s,
            s || connected (transport a r), Returned v)).
Proof.
  unfold attempt_begins, attempt_ends. step_attempt.
  repeat (ev; match goal with
    | |- context [transport a r] => destruct (transport a r)
    | |- context [nonempty ?d] => destruct d
    | |- context [json_loads ?d] => destruct (json_loads d)
    | |- context [is_JSONDecodeError ?e] => destruct (is_JSONDecodeError e)
    | |- context [(400 <=? ?x)%Z] => destruct (400 <=? x)%Z
    | |- context [value_get ?x ?y ?z] => destruct (value_get x y z)
    | |- context [a <? ?m] => destruct (Nat.ltb_spec a m)
    | |- context [if s then _ else _] => destruct s
    | |- context [orb s _] => destruct s
    end); ev;
    solve [left; split; [reflexivity|assumption]
          |right; eexists; reflexivity].
Qed.

(** The loop is such a run from attempt 0. *)
Lemma for_each_loop_run r n a s :
  a + S n = MAX_RETRIES ->
  exists t s' v,
    for_each (seq a (S n)) (attempt_body r) s = (t, s', Returned v)
    /\ loop_run r a s t s' v.
Proof.
  revert a s. induction n as [|n IH]; intros a s Ha; cbn [seq for_each].
  - destruct (attempt_body_shape r a s) as [[E Hlt]|[v E]].
    + unfold MAX_RETRIES in *. lia.
    + erewrite bind_Returned by exact E. do 3 eexists.
      split; [reflexivity|]. apply loop_run_return. exact E.
  - destruct (attempt_body_shape r a s) as [[E Hlt]|[v E]].
    + destruct (IH (S a) (s || connected (transport a r)) ltac:(lia))
        as (t & s' & v & E' & Hrun).
      erewrite bind_Normal by exact E.
      cbn [seq for_each] in E'. rewrite E'.
      do 3 eexists. split; [reflexivity|].
      eapply loop_run_next; [exact E|exact Hrun].
    + erewrite bind_Returned by exact E. do 3 eexists.
      split; [reflexivity|]. apply loop_run_return. exact E.
Qed.

Lemma loop_loop_run r s :
  exists t s' v, loop r s = (t, s', Returned v) /\ loop_run r 0 s t s' v.
Proof.
  unfold loop, range. apply (for_each_loop_run r 2 0 s). reflexivity.
Qed.

Lemma attempt_returns_inv r a s t s' v :
  attempt_body r a s = (t, s', Returned v) ->
  t = attempt_begins r a ++ attempt_ends r a s
  /\ s' = s || connected (transport a r).
Proof.
  intros E. destruct (attempt_body_shape r a s) as [[E' _]|[v' E']];
    rewrite E' in E; inversion E; split; reflexivity.
Qed.

Lemma attempt_goes_on_inv r a s t s' u :
  attempt_body r a s = (t, s', Normal u) ->
  t = attempt_begins r a ++ [EvSleep (RETRY_DELAY * (a + 1))]
      ++ attempt_ends r a s
  /\ s' = s || connected (transport a r)
  /\ a < MAX_RETRIES - 1.
Proof.
  intros E. destruct (attempt_body_shape r a s) as [[E' Ha]|[v' E']];
    rewrite E' in E; inversion E; repeat split; assumption || reflexivity.
Qed.

Lemma attempts_made_app (t t' : list event) :
  attempts_made (t ++ t') = attempts_made t + attempts_made t'.
Proof.
  unfold attempts_made. rewrite filter_app, length_app. reflexivity.
Qed.

Lemma closes_app (t t' : list event) :
  closes (t ++ t') = closes t + closes t'.
Proof.
  unfold closes. rewrite filter_app, length_app. reflexivity.
Qed.

(** What one attempt adds to a trace. *)
Lemma attempt_segment r a s (retry : bool) :
  let seg := attempt_begins r a
             ++ (if retry then [EvSleep (RETRY_DELAY * (a + 1))] else [])
             ++ attempt_ends r a s in
  (forall rest, released false (seg ++ rest) = released false rest)
  /\ (forall rest,
         timeout_before_request (seg ++ rest) = timeout_before_request rest)
  /\ schedule seg
     = EvConnect QUORA_API_HOST
       :: (if retry then [EvSleep (RETRY_DELAY * (a + 1))] else [])
  /\ attempts_made seg = 1
  /\ closes seg = (if s || connected (transport a r) then 1 else 0)
  /\ List.length (requests seg)
     = (if connected (transport a r) then 1 else 0).
Proof.
  unfold attempt_begins, attempt_ends.
  destruct (connected (transport a r)), s, retry; cbn;
    repeat split; reflexivity.
Qed.

Lemma loop_run_released r a s t s' v :
  loop_run r a s t s' v ->
  forall rest, released false (t ++ rest) = released false rest.
Proof.
  induction 1 as [a s t s' v E|a s t0 s0 t s' v E _ IH]; intros rest.
  - destruct (attempt_returns_inv _ _ _ _ _ _ E) as [-> _].
    apply (proj1 (attempt_segment r a s false)).
  - destruct (attempt_goes_on_inv _ _ _ _ _ _ E) as (-> & _ & _).
    rewrite <- app_assoc.
    rewrite (proj1 (attempt_segment r a s true)). apply IH.
Qed.

Lemma loop_run_timeout r a s t s' v :
  loop_run r a s t s' v ->
  forall rest,
    timeout_before_request (t ++ rest) = timeout_before_request rest.
Proof.
  induction 1 as [a s t s' v E|a s t0 s0 t s' v E _ IH]; intros rest.
  - destruct (attempt_returns_inv _ _ _ _ _ _ E) as [-> _].
    apply (proj1 (proj2 (attempt_segment r a s false))).
  - destruct (attempt_goes_on_inv _ _ _ _ _ _ E) as (-> & _ & _).
    rewrite <- app_assoc.
    rewrite (proj1 (proj2 (attempt_segment r a s true))). apply IH.
Qed.

Lemma loop_run_schedule r a s t s' v :
  loop_run r a s t s' v ->
  a < MAX_RETRIES ->
  exists k,
    a + k < MAX_RETRIES
    /\ schedule t
       = flat_map (fun i => [EvConnect QUORA_API_HOST;
                             EvSleep (RETRY_DELAY * (i + 1))]) (seq a k)
         ++ [EvConnect QUORA_API_HOST].
Proof.
  induction 1 as [a s t s' v E|a s t0 s0 t s' v E Hrun IH]; intros Hlt.
  - destruct (attempt_returns_inv _ _ _ _ _ _ E) as [-> _].
    exists 0. split; [lia|].
    apply (proj1 (proj2 (proj2 (attempt_segment r a s false)))).
  - destruct (attempt_goes_on_inv _ _ _ _ _ _ E) as (-> & _ & Ha).
    destruct IH as (k & Hk & Hs); [unfold MAX_RETRIES in *; lia|].
    exists (S k). split; [lia|].
    rewrite schedule_app, Hs.
    rewrite (proj1 (proj2 (proj2 (attempt_segment r a s true)))).
    reflexivity.
Qed.

Lemma loop_run_counts r a s t s' v :
  loop_run r a s t s' v ->
  List.length (requests t) <= closes t
  /\ closes t <= attempts_made t
  /\ (s || connected (transport a r) = true -> closes t = attempts_made t).
Proof.
  induction 1 as [a s t s' v E|a s t0 s0 t s' v E _ IH].
  - destruct (attempt_returns_inv _ _ _ _ _ _ E) as [-> _].
    destruct (attempt_segment r a s false) as (_ & _ & _ & Hn & Hc & Hr).
    cbn [app] in Hn, Hc, Hr. rewrite Hn, Hc, Hr.
    destruct s, (connected (transport a r)); cbn; repeat split; lia.
  - destruct (attempt_goes_on_inv _ _ _ _ _ _ E) as (-> & -> & _).
    destruct (attempt_segment r a s true) as (_ & _ & _ & Hn & Hc & Hr).
    cbn zeta in Hn, Hc, Hr.
    rewrite requests_app, length_app, closes_app, attempts_made_app.
    rewrite Hn, Hc, Hr. destruct IH as (IH1 & IH2 & IH3).
    destruct s, (connected (transport a r)); cbn [orb] in *;
      repeat split; intros; try discriminate;
      try rewrite IH3 by (destruct (connected (transport (S a) r));
                          reflexivity); lia.
Qed.

(** A call raises while the query string is built, with no event, or
    runs the loop from attempt 0 and returns what it returns. *)
Lemma make_api_request_runs method endpoint params headers :
  (exists e,
      build_query_string method params = inl e
      /\ run (make_api_request method endpoint params headers) = ([], inl e))
  \/ (exists qs t s' v,
         build_query_string method params = inr qs
         /\ run (make_api_request method endpoint params headers)
            = (t, inr v)
         /\ loop_run (sent_request method endpoint qs headers) 0 false
              t s' v).
Proof.
  destruct (build_query_string method params) as [e|qs] eqn:Hq.
  - left. exists e. split; [reflexivity|].
    unfold run, make_api_request. rewrite Hq. reflexivity.
  - right.
    destruct (loop_loop_run (sent_request method endpoint qs headers) false)
      as (t & s' & v & E & Hrun).
    exists qs, t, s', v. split; [reflexivity|]. split; [|exact Hrun].
    apply (run_make_api_request method endpoint params headers qs t s' v
             Hq E).
Qed.

(** X1: in every call of the executor, a connection over which a request
    was sent is closed before the next attempt makes a new one and before
    the call returns, whatever way the attempt ended. *)
Theorem connection_released_after_every_attempt
    method endpoint params headers :
  released false
    (fst (run (make_api_request method endpoint params headers))) = true.
Proof.
  destruct (make_api_request_runs method endpoint params headers)
    as [(e & _ & E)|(qs & t & s' & v & _ & E & Hrun)]; rewrite E; cbn [fst].
  - reflexivity.
  - rewrite <- (app_nil_r t). apply (loop_run_released _ _ _ _ _ _ Hrun).
Qed.

(** X2: a call of the executor makes at most three attempts and sleeps
    only between attempts: nothing, 2 seconds, or 2 then 4 seconds, so at
    most 6 seconds in all.  It makes no attempt exactly when it raises
    (while the query string is built), and one attempt more than it sleeps
    when it returns. *)
Theorem attempts_and_waits_bounded method endpoint params headers :
  attempts_made (fst (run (make_api_request method endpoint params headers)))
  <= MAX_RETRIES
  /\ (sleeps (fst (run (make_api_request method endpoint params headers)))
      = []
      \/ sleeps (fst (run (make_api_request method endpoint params headers)))
         = [2]
      \/ sleeps (fst (run (make_api_request method endpoint params headers)))
         = [2; 4])
  /\ list_sum
       (sleeps (fst (run (make_api_request method endpoint params headers))))
     <= 6
  /\ attempts_made
       (fst (run (make_api_request method endpoint params headers)))
     = match snd (run (make_api_request method endpoint params headers)) with
       | inl _ => 0
       | inr _ =>
           S (List.length
                (sleeps (fst (run (make_api_request method endpoint params
                                     headers)))))
       end.
Proof.
  destruct (make_api_request_runs method endpoint params headers)
    as [(e & _ & E)|(qs & t & s' & v & _ & E & Hrun)];
    rewrite E; cbn [fst snd].
  - cbn. unfold MAX_RETRIES. repeat split; auto; lia.
  - destruct (loop_run_schedule _ _ _ _ _ _ Hrun) as (k & Hk & Hs);
      [unfold MAX_RETRIES; lia|].
    fold (expected_schedule k) in Hs.
    destruct (expected_schedule_counts t k Hs) as [Hn Hw].
    rewrite Hn, Hw. unfold MAX_RETRIES in *.
    destruct k as [|[|[|k]]]; try lia; cbn; repeat split; auto; lia.
Qed.

(** X3: every request of a call is sent over a connection whose timeout
    was set to 30 seconds just before. *)
Theorem timeout_set_before_every_request method endpoint params headers :
  timeout_before_request
    (fst (run (make_api_request method endpoint params headers))) = true.
Proof.
  destruct (make_api_request_runs method endpoint params headers)
    as [(e & _ & E)|(qs & t & s' & v & _ & E & Hrun)]; rewrite E; cbn [fst].
  - reflexivity.
  - rewrite <- (app_nil_r t). apply (loop_run_timeout _ _ _ _ _ _ Hrun).
Qed.

(** X4: [conn.close()] is called once per attempt from the first attempt
    that got a connection on, also in a later attempt that got none (where
    it closes the earlier connection again): when the first attempt gets a
    connection, there are as many closes as attempts.  In every call there
    are at least as many closes as requests and at most as many as
    attempts. *)
Theorem close_called_in_every_attempt_once_connected
    method endpoint params headers qs :
  build_query_string method params = inr qs ->
  connected (transport 0 (sent_request method endpoint qs headers)) = true ->
  closes (fst (run (make_api_request method endpoint params headers)))
  = attempts_made
      (fst (run (make_api_request method endpoint params headers)))
  /\ List.length
       (requests (fst (run (make_api_request method endpoint params
                              headers))))
     <= closes (fst (run (make_api_request method endpoint params headers))).
Proof.
  intros Hq Hc.
  destruct (make_api_request_runs method endpoint params headers)
    as [(e & Hq' & _)|(qs' & t & s' & v & Hq' & E & Hrun)];
    rewrite Hq in Hq'; [discriminate|].
  inversion Hq'; subst qs'. rewrite E. cbn [fst].
  destruct (loop_run_counts _ _ _ _ _ _ Hrun) as (H1 & _ & H3).
  split; [|exact H1]. apply H3. rewrite Hc. reflexivity.
Qed.

(** X5: when [HTTPSConnection(...)] raises in every attempt, the call
    does nothing but three attempts to connect and the two waits: no
    request is sent and [close] is never called; it returns the exhaustion
    envelope of the third exception. *)
Theorem no_connection_no_request_no_close
    method endpoint params headers qs e0 e1 e2 :
  build_query_string method params = inr qs ->
  transport 0 (sent_request method endpoint qs headers) = ConnectRaises e0 ->
  transport 1 (sent_request method endpoint qs headers) = ConnectRaises e1 ->
  transport 2 (sent_request method endpoint qs headers) = ConnectRaises e2 ->
  run (make_api_request method endpoint params headers)
  = ([EvConnect QUORA_API_HOST; EvSleep 2;
      EvConnect QUORA_API_HOST; EvSleep 4;
      EvConnect QUORA_API_HOST],
     inr (exhausted_envelope e2)).
Proof.
  intros Hq H0 H1 H2.
  apply (run_make_api_request method endpoint params headers qs _ false _ Hq).
  unfold loop, range, MAX_RETRIES. cbn [seq for_each].
  assert (E0 : attempt_body (sent_request method endpoint qs headers) 0 false
               = ([EvConnect QUORA_API_HOST; EvSleep 2], false, Normal tt)).
  { step_attempt. rewrite H0. reflexivity. }
  assert (E1 : attempt_body (sent_request method endpoint qs headers) 1 false
               = ([EvConnect QUORA_API_HOST; EvSleep 4], false, Normal tt)).
  { step_attempt. rewrite H1. reflexivity. }
  assert (E2 : attempt_body (sent_request method endpoint qs headers) 2 false
               = ([EvConnect QUORA_API_HOST], false,
                  Returned (exhausted_envelope e2))).
  { step_attempt. rewrite H2. reflexivity. }
  erewrite bind_Normal by exact E0.
  erewrite bind_Normal by exact E1.
  erewrite bind_Returned by exact E2. reflexivity.
Qed.

(** ** Exceptions while a response is processed *)

(** An exception other than [JSONDecodeError] raised while the body is
    processed ends the attempt as a transport exception does. *)
Lemma attempt_processing_raises r a s status data e :
  transport a r = Responds status data -> data <> [] ->
  (json_loads data = inl e /\ is_JSONDecodeError e = false)
  \/ (exists d,
         json_loads data = inr d /\ (400 <= status)%Z
         /\ value_get d (py "message") (VStr (py "Unknown API error"))
            = inl e) ->
  exists t s',
    attempt_body r a s
    = (t, s',
       if a <? MAX_RETRIES - 1 then Normal tt
       else Returned (exhausted_envelope e))
    /\ schedule t
       = EvConnect QUORA_API_HOST
         :: (if a <? MAX_RETRIES - 1
             then [EvSleep (RETRY_DELAY * (a + 1))] else []).
Proof.
  intros Hr Hd Hp. step_attempt. rewrite Hr.
  destruct data as [|c data]; [congruence|]. ev.
  destruct Hp as [[Hj He]|(d & Hj & Hs & Hm)].
  - rewrite Hj. ev. rewrite He.
    destruct (a <? MAX_RETRIES - 1); ev; eauto.
  - assert (He : is_JSONDecodeError e = false).
    { unfold value_get in Hm.
      destruct d as [| | | | | |dd]; try (inversion Hm; reflexivity).
      destruct (dict_lookup (py "message") dd); discriminate. }
    apply Z.leb_le in Hs. rewrite Hj. ev. rewrite Hs. ev. rewrite Hm. ev.
    rewrite He. destruct (a <? MAX_RETRIES - 1); ev; eauto.
Qed.

(** Three attempts that end this way: the exhaustion envelope after the
    waits of 2 and 4 seconds. *)
Lemma processing_raises_three_times
    method endpoint params headers qs status data e :
  build_query_string method params = inr qs ->
  (forall a, a < MAX_RETRIES ->
     transport a (sent_request method endpoint qs headers)
     = Responds status data) ->
  data <> [] ->
  (json_loads data = inl e /\ is_JSONDecodeError e = false)
  \/ (exists d,
         json_loads data = inr d /\ (400 <= status)%Z
         /\ value_get d (py "message") (VStr (py "Unknown API error"))
            = inl e) ->
  snd (run (make_api_request method endpoint params headers))
  = inr (exhausted_envelope e)
  /\ schedule (fst (run (make_api_request method endpoint params headers)))
     = [EvConnect QUORA_API_HOST; EvSleep 2;
        EvConnect QUORA_API_HOST; EvSleep 4;
        EvConnect QUORA_API_HOST].
Proof.
  intros Hq Hall Hd Hp.
  pose (r := sent_request method endpoint qs headers).
  assert (Hat : forall a s, a < MAX_RETRIES -> exists t s',
             attempt_body r a s
             = (t, s', if a <? MAX_RETRIES - 1 then Normal tt
                       else Returned (exhausted_envelope e))
             /\ schedule t
                = EvConnect QUORA_API_HOST
                  :: (if a <? MAX_RETRIES - 1
                      then [EvSleep (RETRY_DELAY * (a + 1))] else [])).
  { intros a s Ha.
    apply (attempt_processing_raises r a s status data e
             (Hall a Ha) Hd Hp). }
  destruct (Hat 0 false ltac:(unfold MAX_RETRIES; lia))
    as (t0 & s0 & E0 & H0).
  destruct (Hat 1 s0 ltac:(unfold MAX_RETRIES; lia))
    as (t1 & s1 & E1 & H1).
  destruct (Hat 2 s1 ltac:(unfold MAX_RETRIES; lia))
    as (t2 & s2 & E2 & H2).
  cbn in E0, E1, E2, H0, H1, H2.
  assert (E : loop r false
              = (t0 ++ t1 ++ t2, s2, Returned (exhausted_envelope e))).
  { unfold loop, range, MAX_RETRIES. cbn [seq for_each].
    erewrite bind_Normal by exact E0.
    erewrite bind_Normal by exact E1.
    erewrite bind_Returned by exact E2. reflexivity. }
  rewrite (run_make_api_request method endpoint params headers qs _ _ _
             Hq E).
  split; [reflexivity|]. cbn [fst].
  rewrite !schedule_app, H0, H1, H2. reflexivity.
Qed.

(** X6: an answer with a status of 400 or more whose body is JSON but
    not an object is taken for a failed attempt: [response_data.get]
    raises [AttributeError].  When every attempt is answered so, the call
    retries after 2 and 4 seconds and returns the exhaustion envelope with
    status 500 and the text of the [AttributeError], not the upstream
    status. *)
Theorem non_object_error_body_exhausts_attempts
    method endpoint params headers qs status data d :
  build_query_string method params = inr qs ->
  (forall a, a < MAX_RETRIES ->
     transport a (sent_request method endpoint qs headers)
     = Responds status data) ->
  data <> [] -> json_loads data = inr d -> (400 <= status)%Z ->
  (forall dd, d <> VDict dd) ->
  snd (run (make_api_request method endpoint params headers))
  = inr (exhausted_envelope (AttributeError (type_name d) (py "get")))
  /\ schedule (fst (run (make_api_request method endpoint params headers)))
     = [EvConnect QUORA_API_HOST; EvSleep 2;
        EvConnect QUORA_API_HOST; EvSleep 4;
        EvConnect QUORA_API_HOST]
  /\ field "status"
       (exhausted_envelope (AttributeError (type_name d) (py "get")))
     = Some (VInt 500).
Proof.
  intros Hq Hall Hd Hj Hs Hnd.
  destruct (processing_raises_three_times method endpoint params headers qs
              status data (AttributeError (type_name d) (py "get"))
              Hq Hall Hd) as [Hv Ht].
  - right. exists d. split; [exact Hj|]. split; [exact Hs|].
    unfold value_get. destruct d as [| | | | | |dd]; try reflexivity.
    destruct (Hnd dd eq_refl).
  - repeat split; assumption || reflexivity.
Qed.

(** X7: an exception of [json.loads] that is not a [JSONDecodeError]
    (a [RecursionError] on a deeply nested body, say) is not reported as a
    decoding failure: the attempt counts as failed, and when every attempt
    is answered so the call returns the exhaustion envelope after the two
    waits. *)
Theorem other_json_exception_exhausts_attempts
    method endpoint params headers qs status data e :
  build_query_string method params = inr qs ->
  (forall a, a < MAX_RETRIES ->
     transport a (sent_request method endpoint qs headers)
     = Responds status data) ->
  data <> [] -> json_loads data = inl e -> is_JSONDecodeError e = false ->
  snd (run (make_api_request method endpoint params headers))
  = inr (exhausted_envelope e)
  /\ schedule (fst (run (make_api_request method endpoint params headers)))
     = [EvConnect QUORA_API_HOST; EvSleep 2;
        EvConnect QUORA_API_HOST; EvSleep 4;
        EvConnect QUORA_API_HOST].
Proof.
  intros Hq Hall Hd Hj He.
  apply (processing_raises_three_times method endpoint params headers qs
           status data e Hq Hall Hd).
  left. split; assumption.
Qed.

(** ** The request of a call *)

Lemma pystr_eqb_neq (a b : pystr) : a <> b -> pystr_eqb a b = false.
Proof.
  intros H. unfold pystr_eqb. destruct (list_eq_dec N.eq_dec a b);
    [contradiction|reflexivity].
Qed.

(** X8: the mapping is sent only by a [GET] with a non-empty mapping.
    With no mapping, an empty one, or a method that is not exactly [GET],
    every request of the call has the endpoint alone as its target, and
    the call cannot raise, since the mapping is not encoded at all. *)
Theorem no_query_string_unless_get_with_params
    method endpoint params headers :
  params = None \/ params = Some [] \/ method <> py "GET" ->
  build_query_string method params = inr []
  /\ (exists v,
         snd (run (make_api_request method endpoint params headers))
         = inr v)
  /\ Forall (fun r => req_url r = endpoint)
       (requests
          (fst (run (make_api_request method endpoint params headers)))).
Proof.
  intros H.
  assert (Hq : build_query_string method params = inr []).
  { unfold build_query_string.
    destruct H as [->|[->|H]]; try reflexivity.
    rewrite (pystr_eqb_neq _ _ H), andb_false_r. reflexivity. }
  split; [exact Hq|]. split.
  - destruct (make_api_request_runs method endpoint params headers)
      as [(e & Hq' & _)|(qs & t & s' & v & _ & E & _)].
    + rewrite Hq in Hq'. discriminate.
    + exists v. rewrite E. reflexivity.
  - eapply Forall_impl;
      [|apply (make_api_request_requests method endpoint params headers
                 [] Hq)].
    intros r <-. cbn. apply app_nil_r.
Qed.

(** X9: every attempt of a call sends the same request: the method, the
    endpoint followed by the query string, and the headers given, or the
    three default headers when none are given ([None]; an empty dict is
    sent as it is). *)
Theorem every_attempt_sends_the_same_request
    method endpoint params headers qs :
  build_query_string method params = inr qs ->
  Forall
    (eq (mkRequest method (endpoint ++ qs)
           (match headers with
            | None =>
                [(py "Content-Type", py "application/json");
                 (py "x-rapidapi-host", QUORA_API_HOST);
                 (py "x-rapidapi-key", QUORA_API_KEY)]
            | Some h => h
            end)))
    (requests (fst (run (make_api_request method endpoint params headers)))).
Proof.
  intros Hq.
  apply (make_api_request_requests method endpoint params headers qs Hq).
Qed.

(** X10: a call returns [success] true only for a round trip with a
    status below 400 and a non-empty body that [json.loads] accepted, and
    then the envelope is the success envelope of that status and of the
    parsed body. *)
Theorem success_only_from_round_trip_below_400
    method endpoint params headers v :
  snd (run (make_api_request method endpoint params headers)) = inr v ->
  field "success" v = Some (VBool true) ->
  exists qs a status data d,
    build_query_string method params = inr qs
    /\ a < MAX_RETRIES
    /\ transport a (sent_request method endpoint qs headers)
       = Responds status data
    /\ data <> [] /\ json_loads data = inr d /\ (status < 400)%Z
    /\ v = success_envelope status d.
Proof.
  intros Hv Hs.
  destruct (make_api_request_cases method endpoint params headers)
    as [(e & _ & E)|(qs & t & s' & v' & Hq & _ & E & Hin)];
    rewrite E in Hv; cbn in Hv; [discriminate|].
  inversion Hv; subst v'.
  destruct Hin as [(a & status & data & Ha & Hr & Hb)|[e ->]];
    [|vm_compute in Hs; discriminate Hs].
  destruct Hb as [[_ ->]|[(e & _ & _ & _ & ->)|[(d & Hd & Hj & Hst & ->)
                 |(d & m & _ & _ & _ & _ & ->)]]];
    try (vm_compute in Hs; discriminate Hs).
  exists qs, a, status, data, d. repeat split; assumption.
Qed.

(** ** The endpoint functions *)

Lemma endpoint_behaves (path : pystr) (params : list (pystr * pystr)) :
  params <> [] ->
  endpoint_behaviour path params
    (try_except
       (v <- call (make_api_request (py "GET") path (Some params)
                     (Some QUORA_HEADERS)) ;;
        return_ v)
       (fun _ => true)
       (fun e => return_ (error_object e))).
Proof.
  intros Hne. unfold endpoint_behaviour. rewrite endpoint_run.
  assert (Hq : build_query_string (py "GET") (Some params)
               = match urlencode params with
                 | inl e => inl e
                 | inr q => inr (py "?" ++ q)
                 end).
  { unfold build_query_string. destruct params; [congruence|].
    reflexivity. }
  destruct (urlencode params) as [e|q].
  - destruct (make_api_request_cases (py "GET") path (Some params)
                (Some QUORA_HEADERS))
      as [(e' & Hq' & E)|(qs & t & s' & v & Hq' & _)];
      rewrite Hq in Hq'; [|discriminate].
    inversion Hq'; subst e'. rewrite E. reflexivity.
  - cbn [fst].
    apply (make_api_request_requests (py "GET") path (Some params)
             (Some QUORA_HEADERS) (py "?" ++ q) Hq).
Qed.

Lemma in_loop_envelope_shape r v : in_loop_envelope r v -> envelope_shape v.
Proof.
  intros [(a & status & data & _ & _ & Hb)|[e ->]].
  - destruct Hb as [[_ ->]|[(e & _ & _ & _ & ->)|[(d & _ & _ & _ & ->)
                   |(d & m & _ & _ & _ & _ & ->)]]];
      repeat split; reflexivity.
  - repeat split; reflexivity.
Qed.

Lemma endpoint_returns_shape path params body :
  endpoint_returns path params body ->
  exists v,
    snd (run body) = inr v
    /\ (envelope_shape v \/ error_object_shape v).
Proof.
  intros (v & Hv & [(qs & _ & Hin)|(e & _ & He)]); exists v;
    (split; [exact Hv|]).
  - left. apply (in_loop_envelope_shape _ _ Hin).
  - right. rewrite He. repeat split; reflexivity.
Qed.

(** X11: each endpoint function sends nothing but the [GET] of its path
    followed by [?] and the encoded mapping, with [QUORA_HEADERS], in every
    attempt; and when the mapping cannot be encoded it sends nothing at
    all and returns the error object of the exception. *)
Theorem endpoints_send_their_mapping_or_report
    query language url cursor time sort :
  endpoint_behaviour (py "/search_questions")
    (search_questions_params query language cursor time)
    (search_questions query language cursor time)
  /\ endpoint_behaviour (py "/search_answers")
       (search_answers_params query language cursor time)
       (search_answers query language cursor time)
  /\ endpoint_behaviour (py "/search_profiles")
       (search_profiles_params query language cursor)
       (search_profiles query language cursor)
  /\ endpoint_behaviour (py "/question_answers")
       (question_answers_params url cursor sort)
       (question_answers url cursor sort)
  /\ endpoint_behaviour (py "/question_comments")
       (question_comments_params url cursor)
       (question_comments url cursor).
Proof.
  repeat split; apply endpoint_behaves;
    destruct cursor as [[|c x]|]; try destruct time as [[|c' x']|];
    try destruct sort as [[|c'' x'']|]; discriminate.
Qed.

(** X12: what an endpoint function returns has one of two shapes that
    their keys tell apart: an envelope has [success] and [status] and
    neither [error] nor [exception_type]; the error object has [error] and
    [exception_type] and neither [success] nor [status]. *)
Theorem endpoint_result_shapes query language url cursor time sort :
  (exists v,
      snd (run (search_questions query language cursor time)) = inr v
      /\ (envelope_shape v \/ error_object_shape v))
  /\ (exists v,
         snd (run (search_answers query language cursor time)) = inr v
         /\ (envelope_shape v \/ error_object_shape v))
  /\ (exists v,
         snd (run (search_profiles query language cursor)) = inr v
         /\ (envelope_shape v \/ error_object_shape v))
  /\ (exists v,
         snd (run (question_answers url cursor sort)) = inr v
         /\ (envelope_shape v \/ error_object_shape v))
  /\ (exists v,
         snd (run (question_comments url cursor)) = inr v
         /\ (envelope_shape v \/ error_object_shape v)).
Proof.
  split; [|split; [|split; [|split]]];
    eapply endpoint_returns_shape; apply endpoint_returns_value.
Qed.

Lemma executor_bounded_effort method endpoint params headers :
  bounded_effort
    (fst (run (make_api_request method endpoint params headers))).
Proof.
  unfold bounded_effort.
  destruct (make_api_request_runs method endpoint params headers)
    as [(e & _ & E)|(qs & t & s' & v & _ & E & Hrun)]; rewrite E; cbn [fst].
  - cbn. unfold MAX_RETRIES. repeat split; lia.
  - destruct (loop_run_schedule _ _ _ _ _ _ Hrun) as (k & Hk & Hs);
      [unfold MAX_RETRIES; lia|].
    fold (expected_schedule k) in Hs.
    destruct (expected_schedule_counts t k Hs) as [Hn Hw].
    destruct (loop_run_counts _ _ _ _ _ _ Hrun) as (H1 & H2 & _).
    split; [rewrite Hn; lia|]. split.
    { rewrite Hw. unfold MAX_RETRIES in Hk.
      destruct k as [|[|[|k]]]; cbn; lia. }
    split; [lia|]. split.
    + rewrite <- (app_nil_r t). apply (loop_run_timeout _ _ _ _ _ _ Hrun).
    + rewrite <- (app_nil_r t). apply (loop_run_released _ _ _ _ _ _ Hrun).
Qed.

Lemma endpoint_bounded_effort (path : pystr) (params : list (pystr * pystr)) :
  bounded_effort
    (fst (run (try_except
                 (v <- call (make_api_request (py "GET") path (Some params)
                               (Some QUORA_HEADERS)) ;;
                  return_ v)
                 (fun _ => true)
                 (fun e => return_ (error_object e))))).
Proof.
  rewrite endpoint_run. cbn [fst]. apply executor_bounded_effort.
Qed.

(** X14: a call of any of the five endpoint functions makes at most
    three attempts, sleeps at most six seconds, sends no more requests
    than attempts, sets the timeout before each request, and leaves no
    connection in use. *)
Theorem endpoints_bounded_effort query language url cursor time sort :
  bounded_effort (fst (run (search_questions query language cursor time)))
  /\ bounded_effort (fst (run (search_answers query language cursor time)))
  /\ bounded_effort (fst (run (search_profiles query language cursor)))
  /\ bounded_effort (fst (run (question_answers url cursor sort)))
  /\ bounded_effort (fst (run (question_comments url cursor))).
Proof.
  split; [|split; [|split; [|split]]]; apply endpoint_bounded_effort.
Qed.

(** ** A round trip in a call *)


(** When attempt [k] is one that returns [vk] and the run gets to it, the
    run ends there and returns [vk]. *)
Lemma loop_run_returns_at_made r k vk :
  (forall s, exists t s', attempt_body r k s = (t, s', Returned vk)) ->
  forall a s t s' v,
    loop_run r a s t s' v ->
    a <= k -> k - a < attempts_made t ->
    v = vk /\ attempts_made t = S (k - a).
Proof.
  intros Hk a s t s' v Hrun.
  induction Hrun as [a s t s' v E|a s t0 s0 t s' v E Hrun IH];
    intros Hle Hlt.
  - destruct (attempt_returns_inv _ _ _ _ _ _ E) as [Ht _].
    assert (Hn : attempts_made t = 1).
    { rewrite Ht. apply (attempt_segment r a s false). }
    rewrite Hn in *. assert (a = k) as -> by lia.
    destruct (Hk s) as (t1 & s1 & E1). rewrite E1 in E.
    inversion E; subst. split; [reflexivity|]. f_equal. lia.
  - destruct (attempt_goes_on_inv _ _ _ _ _ _ E) as (Ht & _ & _).
    assert (Hn : attempts_made t0 = 1).
    { rewrite Ht. apply (attempt_segment r a s true). }
    rewrite attempts_made_app, Hn in *.
    assert (a <> k).
    { intros ->. destruct (Hk s) as (t1 & s1 & E1). rewrite E1 in E.
      discriminate E. }
    destruct IH as [IH1 IH2]; [lia|lia|].
    split; [exact IH1|]. rewrite IH2. lia.
Qed.

(** A call that gets to an attempt which returns [v] returns [v], and
    that attempt is its last. *)
Lemma run_round_trip method endpoint params headers qs k v :
  build_query_string method params = inr qs ->
  (forall s, exists t s',
      attempt_body (sent_request method endpoint qs headers) k s
      = (t, s', Returned v)) ->
  k < attempts_made
        (fst (run (make_api_request method endpoint params headers))) ->
  snd (run (make_api_request method endpoint params headers)) = inr v
  /\ attempts_made
       (fst (run (make_api_request method endpoint params headers))) = S k
  /\ schedule (fst (run (make_api_request method endpoint params headers)))
     = expected_schedule k.
Proof.
  intros Hq Hk Hmade.
  destruct (make_api_request_runs method endpoint params headers)
    as [(e & Hq' & _)|(qs' & t & s' & v' & Hq' & E & Hrun)];
    rewrite Hq in Hq'; [discriminate|].
  inversion Hq'; subst qs'. rewrite E in *. cbn [fst snd] in *.
  destruct (loop_run_returns_at_made _ k v Hk _ _ _ _ _ Hrun)
    as [-> Hn]; [lia|lia|].
  rewrite Nat.sub_0_r in Hn.
  split; [reflexivity|]. split; [exact Hn|].
  destruct (loop_run_schedule _ _ _ _ _ _ Hrun) as (k' & Hk' & Hs);
    [unfold MAX_RETRIES; lia|].
  fold (expected_schedule k') in Hs.
  destruct (expected_schedule_counts t k' Hs) as [Hn' _].
  assert (k' = k) as -> by lia. exact Hs.
Qed.

(** A call gets to attempt [k] when every attempt before it raised in the
    transport. *)
Lemma attempt_made_after_transport_failures
    method endpoint params headers qs k :
  build_query_string method params = inr qs ->
  k < MAX_RETRIES ->
  (forall a, a < k ->
     raised_by (transport a (sent_request method endpoint qs headers))
     <> None) ->
  k < attempts_made
        (fst (run (make_api_request method endpoint params headers))).
Proof.
  intros Hq Hk Hprev.
  destruct (make_api_request_runs method endpoint params headers)
    as [(e & Hq' & _)|(qs' & t & s' & v' & Hq' & E & Hrun)];
    rewrite Hq in Hq'; [discriminate|].
  inversion Hq'; subst qs'. rewrite E. cbn [fst].
  assert (H : forall a s t s' v,
             loop_run (sent_request method endpoint qs headers) a s t s' v ->
             a <= k -> k - a < attempts_made t).
  { clear E Hrun. intros a s0 t0 s0' v0 Hrun.
    induction Hrun as [a s1 t1 s1' v1 E|a s1 t1 s2 t2 s1' v1 E Hrun IH];
      intros Hle.
    - destruct (attempt_returns_inv _ _ _ _ _ _ E) as [Ht _].
      assert (Hn : attempts_made t1 = 1).
      { rewrite Ht. apply (attempt_segment _ a s1 false). }
      rewrite Hn. assert (a = k \/ a < k) as [->|Ha] by lia; [lia|].
      exfalso. specialize (Hprev a Ha).
      destruct (raised_by
                  (transport a (sent_request method endpoint qs headers)))
        as [e|] eqn:He; [|congruence].
      destruct (attempt_retries _ a s1 e He) as (t' & s'' & E' & _);
        [unfold MAX_RETRIES in *; lia|].
      rewrite E' in E. discriminate E.
    - destruct (attempt_goes_on_inv _ _ _ _ _ _ E) as (Ht & _ & _).
      assert (Hn : attempts_made t1 = 1).
      { rewrite Ht. apply (attempt_segment _ a s1 true). }
      rewrite attempts_made_app, Hn.
      assert (a = k \/ a < k) as [->|Ha] by lia; [lia|].
      specialize (IH ltac:(lia)). lia. }
  specialize (H 0 false t s' v' Hrun ltac:(lia)). lia.
Qed.

(** C4: a round trip with a status below 400 and a body that parses as
    JSON gives the success envelope: success true, the upstream status,
    and the parsed body as data.  The round trip is that of any attempt
    the call gets to, whatever made the earlier attempts fail. *)
Theorem valid_json_below_400_gives_success
    method endpoint params headers qs k status data d :
  build_query_string method params = inr qs ->
  k < attempts_made
        (fst (run (make_api_request method endpoint params headers))) ->
  transport k (sent_request method endpoint qs headers)
  = Responds status data ->
  data <> [] -> json_loads data = inr d -> (status < 400)%Z ->
  snd (run (make_api_request method endpoint params headers))
  = inr (success_envelope status d)
  /\ field "success" (success_envelope status d) = Some (VBool true)
  /\ field "status" (success_envelope status d) = Some (VInt status)
  /\ field "data" (success_envelope status d) = Some d
  /\ attempts_made
       (fst (run (make_api_request method endpoint params headers))) = S k.
Proof.
  intros Hq Hmade Hr Hd Hj Hst.
  destruct (run_round_trip method endpoint params headers qs k
              (success_envelope status d) Hq) as (Hv & Hn & _).
  - intros s.
    destruct (attempt_success _ k s status data d Hr Hd Hj Hst)
      as (t & s' & E & _). eauto.
  - exact Hmade.
  - repeat split; assumption || reflexivity.
Qed.

(** C5: a round trip with an empty body gives, whatever the status, the
    failure envelope with that status and the message "Empty response from
    API", and the attempt is the last one.  The round trip is that of any
    attempt the call gets to, whatever made the earlier attempts fail. *)
Theorem empty_body_gives_failure
    method endpoint params headers qs k status :
  build_query_string method params = inr qs ->
  k < attempts_made
        (fst (run (make_api_request method endpoint params headers))) ->
  transport k (sent_request method endpoint qs headers)
  = Responds status [] ->
  snd (run (make_api_request method endpoint params headers))
  = inr (empty_envelope status)
  /\ field "success" (empty_envelope status) = Some (VBool false)
  /\ field "status" (empty_envelope status) = Some (VInt status)
  /\ field "message" (empty_envelope status)
     = Some (VStr (py "Empty response from API"))
  /\ attempts_made
       (fst (run (make_api_request method endpoint params headers))) = S k
  /\ schedule (fst (run (make_api_request method endpoint params headers)))
     = expected_schedule k.
Proof.
  intros Hq Hmade Hr.
  destruct (run_round_trip method endpoint params headers qs k
              (empty_envelope status) Hq) as (Hv & Hn & Hs).
  - intros s.
    destruct (attempt_empty _ k s status Hr) as (t & s' & E & _). eauto.
  - exact Hmade.
  - repeat split; assumption || reflexivity.
Qed.


(** X13: a round trip with a status of 400 or more and a body that parses
    to a JSON object gives the failure envelope with the upstream status,
    the object as details, and as message the value the object has under
    [message], whatever JSON value that is; the fallback text is used only
    when the object has no such key.  The attempt is the last one; the
    round trip is that of any attempt the call gets to. *)
Theorem api_error_on_object_body
    method endpoint params headers qs k status data dd :
  build_query_string method params = inr qs ->
  k < attempts_made
        (fst (run (make_api_request method endpoint params headers))) ->
  transport k (sent_request method endpoint qs headers)
  = Responds status data ->
  data <> [] -> json_loads data = inr (VDict dd) -> (400 <= status)%Z ->
  let m := match dict_lookup (py "message") dd with
           | Some x => x
           | None => VStr (py "Unknown API error")
           end in
  snd (run (make_api_request method endpoint params headers))
  = inr (api_error_envelope status m (VDict dd))
  /\ field "success" (api_error_envelope status m (VDict dd))
     = Some (VBool false)
  /\ field "status" (api_error_envelope status m (VDict dd))
     = Some (VInt status)
  /\ field "message" (api_error_envelope status m (VDict dd)) = Some m
  /\ field "details" (api_error_envelope status m (VDict dd))
     = Some (VDict dd)
  /\ attempts_made
       (fst (run (make_api_request method endpoint params headers))) = S k.
Proof.
  intros Hq Hmade Hr Hd Hj Hst m.
  destruct (run_round_trip method endpoint params headers qs k
              (api_error_envelope status m (VDict dd)) Hq) as (Hv & Hn & _).
  - intros s.
    destruct (attempt_api_error _ k s status data (VDict dd) m Hr Hd Hj Hst)
      as (t & s' & E & _); [|eauto].
    unfold value_get, m. destruct (dict_lookup (py "message") dd);
      reflexivity.
  - exact Hmade.
  - repeat split; assumption || reflexivity.
Qed.

(** ** What the endpoint functions transmit *)




End Executor.

(** * Runs of the model

    The executor and the endpoint functions, run with the default key and
    host, [json_loads_lite] as the decoder, and the networks above. *)

Example urlencode_cars :
  urlencode [(py "query", py "cars"); (py "language", py "en")]
  = inr (py "query=cars&language=en").
Proof. reflexivity. Qed.

Example urlencode_url :
  urlencode [(py "url", py "https://www.quora.com/Does-China-have-cars");
             (py "cursor", py "abc")]
  = inr (py "url=https%3A%2F%2Fwww.quora.com%2FDoes-China-have-cars&cursor=abc").
Proof. reflexivity. Qed.

Example quote_plus_space_and_accent :
  quote_plus (py "a b" ++ [233%N]) = inr (py "a+b%C3%A9").
Proof. reflexivity. Qed.

Example quote_plus_surrogate :
  quote_plus [97%N; 0xD800%N] = inl (UnicodeEncodeError [97%N; 0xD800%N] 1 2).
Proof. reflexivity. Qed.

Example exn_str_surrogate :
  exn_str (UnicodeEncodeError [97%N; 0xD800%N] 1 2)
  = py "'utf-8' codec can't encode character '\ud800' in position 1: surrogates not allowed".
Proof. reflexivity. Qed.

Example run_search_questions_cars :
  requests
    (fst (run (search_questions QUORA_API_KEY_default QUORA_API_HOST_default
                 json_loads_lite (always_answers 200 (py "[]"))
                 (py "cars") (py "en") None None)))
  = [mkRequest (py "GET") (py "/search_questions?query=cars&language=en")
       (QUORA_HEADERS QUORA_API_KEY_default QUORA_API_HOST_default)].
Proof. vm_compute. reflexivity. Qed.

Example run_question_comments_cursor :
  map req_url
    (requests
       (fst (run (question_comments QUORA_API_KEY_default
                    QUORA_API_HOST_default json_loads_lite
                    (always_answers 200 (py "[]"))
                    (py "https://www.quora.com/Does-China-have-cars")
                    (Some (py "abc"))))))
  = [py "/question_comments?url=https%3A%2F%2Fwww.quora.com%2FDoes-China-have-cars&cursor=abc"].
Proof. vm_compute. reflexivity. Qed.

(** The connection is closed after each attempt that opened it. *)
Example run_always_down_trace :
  let r := mkRequest (py "GET") (py "/search_profiles")
             (default_headers QUORA_API_KEY_default QUORA_API_HOST_default)
  in
  fst (run (make_api_request QUORA_API_KEY_default QUORA_API_HOST_default
              json_loads_lite always_down
              (py "GET") (py "/search_profiles") None None))
  = [EvConnect QUORA_API_HOST_default; EvTimeout 30; EvRequest r;
     EvSleep 2; EvClose;
     EvConnect QUORA_API_HOST_default; EvTimeout 30; EvRequest r;
     EvSleep 4; EvClose;
     EvConnect QUORA_API_HOST_default; EvTimeout 30; EvRequest r;
     EvClose].
Proof. vm_compute. reflexivity. Qed.

(** An endpoint function whose cursor cannot be encoded returns the error
    object, and nothing is sent. *)
Example run_search_profiles_surrogate :
  run (search_profiles QUORA_API_KEY_default QUORA_API_HOST_default
         json_loads_lite always_down
         (py "cars") (py "en") (Some [0xD800%N]))
  = ([], inr (VDict [(py "error",
                      VStr (py "'utf-8' codec can't encode character '\ud800' in position 0: surrogates not allowed"));
                     (py "exception_type", VStr (py "UnicodeEncodeError"))])).
Proof. vm_compute. reflexivity. Qed.

(** C2 at a body that is JSON but not an object: the upstream answers
    every attempt with status 404 and the body [[]].  [json.loads] gives
    the empty list, [response_data.get] raises [AttributeError], the outer
    [except Exception] takes it for a failed attempt, and after three
    attempts and waits of 2 and 4 seconds the call returns the exhaustion
    envelope with status 500 instead of the failure envelope with status
    404. *)
Theorem error_status_with_non_object_body_is_retried :
  json_loads_lite (py "[]") = inr (VList [])
  /\ snd (run (make_api_request QUORA_API_KEY_default QUORA_API_HOST_default
                 json_loads_lite (always_answers 404 (py "[]"))
                 (py "GET") (py "/search_questions")
                 (Some [(py "query", py "cars"); (py "language", py "en")])
                 None))
     = inr (exhausted_envelope (AttributeError (py "list") (py "get")))
  /\ attempts_made
       (fst (run (make_api_request QUORA_API_KEY_default
                    QUORA_API_HOST_default
                    json_loads_lite (always_answers 404 (py "[]"))
                    (py "GET") (py "/search_questions")
                    (Some [(py "query", py "cars");
                           (py "language", py "en")])
                    None))) = 3
  /\ sleeps
       (fst (run (make_api_request QUORA_API_KEY_default
                    QUORA_API_HOST_default
                    json_loads_lite (always_answers 404 (py "[]"))
                    (py "GET") (py "/search_questions")
                    (Some [(py "query", py "cars");
                           (py "language", py "en")])
                    None))) = [2; 4]
  /\ field "status"
       (exhausted_envelope (AttributeError (py "list") (py "get")))
     = Some (VInt 500)
  /\ field "message"
       (exhausted_envelope (AttributeError (py "list") (py "get")))
     = Some (VStr (py "Request failed after 3 attempts"))
  /\ field "details"
       (exhausted_envelope (AttributeError (py "list") (py "get")))
     = Some (VDict [(py "error",
                     VStr (py "'list' object has no attribute 'get'"))]).
Proof.
  repeat split; vm_compute; reflexivity.
Qed.

(** C1 as the specification words it fails on an empty body: the envelope
    has [success] false and a [message], and no [details]. *)
Lemma empty_body_envelope_lacks_details :
  snd (run (make_api_request QUORA_API_KEY_default QUORA_API_HOST_default
              json_loads_lite (always_answers 200 [])
              (py "GET") (py "/search_questions")
              (Some [(py "query", py "cars"); (py "language", py "en")])
              None))
  = inr (empty_envelope 200)
  /\ has_field "details" (empty_envelope 200) = false
  /\ ~ envelope_invariant (empty_envelope 200).
Proof.
  split; [vm_compute; reflexivity|]. split; [reflexivity|].
  intros (b & Hs & _ & Hm).
  assert (Hb : b = false) by (vm_compute in Hs; congruence).
  destruct Hm as [_ Hm]. destruct (Hm Hb) as [_ Hd].
  vm_compute in Hd. discriminate Hd.
Qed.

(** C10 as worded fails on a mapping that cannot be encoded: the call
    raises before the loop and returns nothing. *)
Lemma unencodable_params_raise_before_loop :
  run (make_api_request QUORA_API_KEY_default QUORA_API_HOST_default
         json_loads_lite always_down
         (py "GET") (py "/search_questions")
         (Some [(py "query", [0xD800%N]); (py "language", py "en")])
         None)
  = ([], inl (UnicodeEncodeError [0xD800%N] 0 1))
  /\ ~ (exists v,
           snd (run (make_api_request QUORA_API_KEY_default
                       QUORA_API_HOST_default json_loads_lite always_down
                       (py "GET") (py "/search_questions")
                       (Some [(py "query", [0xD800%N]);
                              (py "language", py "en")])
                       None))
           = inr v).
Proof.
  split; [vm_compute; reflexivity|].
  intros [v Hv]. vm_compute in Hv. discriminate Hv.
Qed.


(** ** The theorems at concrete calls *)

Lemma transport_failures_exhaust_three_attempts_witness :
  snd (run (make_api_request QUORA_API_KEY_default QUORA_API_HOST_default
              json_loads_lite always_down
              (py "GET") (py "/search_questions")
              (Some [(py "query", py "cars"); (py "language", py "en")])
              None))
  = inr (exhausted_envelope timed_out)
  /\ schedule
       (fst (run (make_api_request QUORA_API_KEY_default
                    QUORA_API_HOST_default json_loads_lite always_down
                    (py "GET") (py "/search_questions")
                    (Some [(py "query", py "cars");
                           (py "language", py "en")])
                    None)))
     = [EvConnect QUORA_API_HOST_default; EvSleep 2;
        EvConnect QUORA_API_HOST_default; EvSleep 4;
        EvConnect QUORA_API_HOST_default].
Proof.
  destruct (transport_failures_exhaust_three_attempts
              QUORA_API_KEY_default QUORA_API_HOST_default
              json_loads_lite always_down
              (py "GET") (py "/search_questions")
              (Some [(py "query", py "cars"); (py "language", py "en")])
              None (py "?query=cars&language=en") timed_out)
    as (Hv & Hs & _).
  - vm_compute. reflexivity.
  - intros a _. cbv [always_down raised_by]. discriminate.
  - reflexivity.
  - split; [exact Hv|exact Hs].
Defined.

Lemma valid_json_below_400_gives_success_witness :
  snd (run (make_api_request QUORA_API_KEY_default QUORA_API_HOST_default
              json_loads_lite (answers_in_turn
                 [(503%Z, py "null");
                  (200%Z, json_object1 (py "data") (py "ok"))])
              (py "GET") (py "/search_answers")
              (Some [(py "query", py "cars"); (py "language", py "en")]) None))
  = inr (success_envelope 200 (VDict [(py "data", VStr (py "ok"))]))
  /\ attempts_made
       (fst (run (make_api_request QUORA_API_KEY_default QUORA_API_HOST_default
                    json_loads_lite (answers_in_turn
                 [(503%Z, py "null");
                  (200%Z, json_object1 (py "data") (py "ok"))])
                    (py "GET") (py "/search_answers")
                    (Some [(py "query", py "cars"); (py "language", py "en")]) None))) = 2.
Proof.
  destruct (valid_json_below_400_gives_success
              QUORA_API_KEY_default QUORA_API_HOST_default
              json_loads_lite
              (answers_in_turn
                 [(503%Z, py "null");
                  (200%Z, json_object1 (py "data") (py "ok"))])
              (py "GET") (py "/search_answers")
              (Some [(py "query", py "cars"); (py "language", py "en")])
              None (py "?query=cars&language=en") 1 200%Z
              (json_object1 (py "data") (py "ok"))
              (VDict [(py "data", VStr (py "ok"))]))
    as (Hv & _ & _ & _ & Hn).
  - vm_compute. reflexivity.
  - vm_compute. lia.
  - reflexivity.
  - vm_compute. discriminate.
  - vm_compute. reflexivity.
  - lia.
  - split; [exact Hv|exact Hn].
Defined.

Lemma empty_body_gives_failure_witness :
  snd (run (make_api_request QUORA_API_KEY_default QUORA_API_HOST_default
              json_loads_lite (answers_in_turn [(503%Z, py "null"); (204%Z, [])])
              (py "GET") (py "/search_profiles")
              (Some [(py "query", py "cars"); (py "language", py "en")]) None))
  = inr (empty_envelope 204)
  /\ attempts_made
       (fst (run (make_api_request QUORA_API_KEY_default QUORA_API_HOST_default
                    json_loads_lite (answers_in_turn [(503%Z, py "null"); (204%Z, [])])
                    (py "GET") (py "/search_profiles")
                    (Some [(py "query", py "cars"); (py "language", py "en")]) None))) = 2.
Proof.
  destruct (empty_body_gives_failure
              QUORA_API_KEY_default QUORA_API_HOST_default
              json_loads_lite
              (answers_in_turn [(503%Z, py "null"); (204%Z, [])])
              (py "GET") (py "/search_profiles")
              (Some [(py "query", py "cars"); (py "language", py "en")])
              None (py "?query=cars&language=en") 1 204%Z)
    as (Hv & _ & _ & _ & Hn & _).
  - vm_compute. reflexivity.
  - vm_compute. lia.
  - reflexivity.
  - split; [exact Hv|exact Hn].
Defined.


Lemma returned_envelope_invariant_witness :
  envelope_invariant_amended (empty_envelope 200).
Proof.
  apply (returned_envelope_invariant
           QUORA_API_KEY_default QUORA_API_HOST_default
           json_loads_lite (always_answers 200 [])
           (py "GET") (py "/search_questions")
           (Some [(py "query", py "cars"); (py "language", py "en")])
           None (empty_envelope 200)).
  vm_compute. reflexivity.
Defined.


(** ** The theorems on every run, at concrete calls *)

Lemma close_called_in_every_attempt_once_connected_witness :
  closes
    (fst (run (make_api_request QUORA_API_KEY_default QUORA_API_HOST_default
                 json_loads_lite connects_once
                 (py "GET") (py "/search_profiles") None None)))
  = attempts_made
      (fst (run (make_api_request QUORA_API_KEY_default
                   QUORA_API_HOST_default json_loads_lite connects_once
                   (py "GET") (py "/search_profiles") None None)))
  /\ List.length
       (requests
          (fst (run (make_api_request QUORA_API_KEY_default
                       QUORA_API_HOST_default json_loads_lite connects_once
                       (py "GET") (py "/search_profiles") None None))))
     <= closes
          (fst (run (make_api_request QUORA_API_KEY_default
                       QUORA_API_HOST_default json_loads_lite connects_once
                       (py "GET") (py "/search_profiles") None None))).
Proof.
  apply (close_called_in_every_attempt_once_connected
           QUORA_API_KEY_default QUORA_API_HOST_default
           json_loads_lite connects_once
           (py "GET") (py "/search_profiles") None None []).
  - reflexivity.
  - reflexivity.
Defined.

(** With [connects_once] the one connection is closed three times. *)
Example run_connects_once_closes :
  closes
    (fst (run (make_api_request QUORA_API_KEY_default QUORA_API_HOST_default
                 json_loads_lite connects_once
                 (py "GET") (py "/search_profiles") None None))) = 3
  /\ List.length
       (requests
          (fst (run (make_api_request QUORA_API_KEY_default
                       QUORA_API_HOST_default json_loads_lite connects_once
                       (py "GET") (py "/search_profiles") None None)))) = 1.
Proof. split; vm_compute; reflexivity. Qed.

Lemma no_connection_no_request_no_close_witness :
  run (make_api_request QUORA_API_KEY_default QUORA_API_HOST_default
         json_loads_lite never_connects
         (py "GET") (py "/search_profiles") None None)
  = ([EvConnect QUORA_API_HOST_default; EvSleep 2;
      EvConnect QUORA_API_HOST_default; EvSleep 4;
      EvConnect QUORA_API_HOST_default],
     inr (exhausted_envelope refused)).
Proof.
  apply (no_connection_no_request_no_close
           QUORA_API_KEY_default QUORA_API_HOST_default
           json_loads_lite never_connects
           (py "GET") (py "/search_profiles") None None []
           refused refused refused); reflexivity.
Defined.

Lemma non_object_error_body_exhausts_attempts_witness :
  snd (run (make_api_request QUORA_API_KEY_default QUORA_API_HOST_default
              json_loads_lite (always_answers 503 (py "null"))
              (py "GET") (py "/question_comments")
              (Some [(py "url", py "https://www.quora.com/q")]) None))
  = inr (exhausted_envelope (AttributeError (py "NoneType") (py "get"))).
Proof.
  destruct (non_object_error_body_exhausts_attempts
              QUORA_API_KEY_default QUORA_API_HOST_default
              json_loads_lite (always_answers 503 (py "null"))
              (py "GET") (py "/question_comments")
              (Some [(py "url", py "https://www.quora.com/q")]) None
              (py "?url=https%3A%2F%2Fwww.quora.com%2Fq") 503%Z (py "null")
              VNone) as (Hv & _).
  - vm_compute. reflexivity.
  - intros a _. reflexivity.
  - vm_compute. discriminate.
  - vm_compute. reflexivity.
  - lia.
  - intros dd. discriminate.
  - exact Hv.
Defined.

Lemma other_json_exception_exhausts_attempts_witness :
  snd (run (make_api_request QUORA_API_KEY_default QUORA_API_HOST_default
              (json_loads_recursion_limit 1000)
              (always_answers 200 (deeply_nested 2000))
              (py "GET") (py "/search_answers") None None))
  = inr (exhausted_envelope
           (OtherError (py "RecursionError")
              (py "maximum recursion depth exceeded while decoding a JSON array from a unicode string"))).
Proof.
  destruct (other_json_exception_exhausts_attempts
              QUORA_API_KEY_default QUORA_API_HOST_default
              (json_loads_recursion_limit 1000)
              (always_answers 200 (deeply_nested 2000))
              (py "GET") (py "/search_answers") None None [] 200%Z
              (deeply_nested 2000)
              (OtherError (py "RecursionError")
              (py "maximum recursion depth exceeded while decoding a JSON array from a unicode string")))
    as (Hv & _).
  - reflexivity.
  - intros a _. reflexivity.
  - vm_compute. discriminate.
  - vm_compute. reflexivity.
  - reflexivity.
  - exact Hv.
Defined.

Lemma no_query_string_unless_get_with_params_witness :
  build_query_string (py "POST") (Some [(py "query", [0xD800%N])]) = inr []
  /\ (exists v,
         snd (run (make_api_request QUORA_API_KEY_default
                     QUORA_API_HOST_default json_loads_lite
                     (always_answers 200 (py "[]"))
                     (py "POST") (py "/search_questions")
                     (Some [(py "query", [0xD800%N])]) None))
         = inr v)
  /\ Forall (fun r => req_url r = py "/search_questions")
       (requests
          (fst (run (make_api_request QUORA_API_KEY_default
                       QUORA_API_HOST_default json_loads_lite
                       (always_answers 200 (py "[]"))
                       (py "POST") (py "/search_questions")
                       (Some [(py "query", [0xD800%N])]) None)))).
Proof.
  apply (no_query_string_unless_get_with_params
           QUORA_API_KEY_default QUORA_API_HOST_default json_loads_lite
           (always_answers 200 (py "[]"))
           (py "POST") (py "/search_questions")
           (Some [(py "query", [0xD800%N])]) None).
  right. right. vm_compute. discriminate.
Defined.

Lemma every_attempt_sends_the_same_request_witness :
  Forall
    (eq (mkRequest (py "GET") (py "/search_profiles?query=cars&language=en")
           []))
    (requests
       (fst (run (make_api_request QUORA_API_KEY_default
                    QUORA_API_HOST_default json_loads_lite always_down
                    (py "GET") (py "/search_profiles")
                    (Some [(py "query", py "cars");
                           (py "language", py "en")])
                    (Some []))))).
Proof.
  apply (every_attempt_sends_the_same_request
           QUORA_API_KEY_default QUORA_API_HOST_default json_loads_lite
           always_down (py "GET") (py "/search_profiles")
           (Some [(py "query", py "cars"); (py "language", py "en")])
           (Some []) (py "?query=cars&language=en")).
  vm_compute. reflexivity.
Defined.

Lemma success_only_from_round_trip_below_400_witness :
  exists qs a status data d,
    build_query_string (py "GET") None = inr qs
    /\ a < MAX_RETRIES
    /\ down_then_answers 2 201 (py "[1, 2]") a
         (sent_request QUORA_API_KEY_default QUORA_API_HOST_default
            (py "GET") (py "/search_answers") qs None)
       = Responds status data
    /\ data <> [] /\ json_loads_lite data = inr d /\ (status < 400)%Z
    /\ success_envelope 201 (VList [VInt 1; VInt 2])
       = success_envelope status d.
Proof.
  apply (success_only_from_round_trip_below_400
           QUORA_API_KEY_default QUORA_API_HOST_default json_loads_lite
           (down_then_answers 2 201 (py "[1, 2]"))
           (py "GET") (py "/search_answers") None None
           (success_envelope 201 (VList [VInt 1; VInt 2]))).
  - vm_compute. reflexivity.
  - reflexivity.
Defined.

Lemma api_error_on_object_body_witness :
  snd (run (make_api_request QUORA_API_KEY_default QUORA_API_HOST_default
              json_loads_lite (answers_in_turn
                 [(503%Z, py "null");
                  (404%Z, json_object1 (py "message") (py "Not found"))])
              (py "GET") (py "/question_answers")
              (Some [(py "url", py "https://www.quora.com/q")]) None))
  = inr (api_error_envelope 404 (VStr (py "Not found"))
           (VDict [(py "message", VStr (py "Not found"))]))
  /\ attempts_made
       (fst (run (make_api_request QUORA_API_KEY_default QUORA_API_HOST_default
                    json_loads_lite (answers_in_turn
                 [(503%Z, py "null");
                  (404%Z, json_object1 (py "message") (py "Not found"))])
                    (py "GET") (py "/question_answers")
                    (Some [(py "url", py "https://www.quora.com/q")]) None))) = 2.
Proof.
  destruct (api_error_on_object_body
              QUORA_API_KEY_default QUORA_API_HOST_default
              json_loads_lite
              (answers_in_turn
                 [(503%Z, py "null");
                  (404%Z, json_object1 (py "message") (py "Not found"))])
              (py "GET") (py "/question_answers")
              (Some [(py "url", py "https://www.quora.com/q")])
              None (py "?url=https%3A%2F%2Fwww.quora.com%2Fq") 1 404%Z
              (json_object1 (py "message") (py "Not found"))
              [(py "message", VStr (py "Not found"))]) as (Hv & _ & _ & _ & _ & Hn).
  - vm_compute. reflexivity.
  - vm_compute. lia.
  - reflexivity.
  - vm_compute. discriminate.
  - vm_compute. reflexivity.
  - lia.
  - split; [exact Hv|exact Hn].
Defined.
